(** * The e-mail nurture sequencer of the Recruitment APK service

    A shallow embedding of
    [projects/recruitment-apk-automation/email_automation_service.py]:
    the readers of the Pipedrive deal, [send_sequence_email] and the loop of
    [process_email_sequence], with the CRM, the SMTP server, the clock and
    the other users of the CRM made explicit. *)

From Stdlib Require Import ZArith Lia Bool List Ascii String DecimalString
  DecimalPos.
From stdpp Require Import base option gmap strings list.
Import ListNotations.

Local Open Scope string_scope.
Local Open Scope list_scope.
Local Open Scope Z_scope.

(** ** Python values and the string operations the module relies on *)

Module Py.

(** The JSON scalars a Pipedrive custom field can hold. *)
Inductive Json :=
| JNull
| JBool (b : bool)
| JInt (n : Z)
| JStr (s : string).

#[global] Instance Json_eq_dec : EqDecision Json.
Proof. solve_decision. Defined.

(** [bool(v)] *)
Definition truthy (v : Json) : bool :=
  match v with
  | JNull => false
  | JBool b => b
  | JInt n => negb (n =? 0)
  | JStr s => negb (String.eqb s "")
  end.

(** [str(n)] for an integer. *)
Definition str_of_Z (n : Z) : string := NilZero.string_of_int (Z.to_int n).

(** [str(v)] *)
Definition str (v : Json) : string :=
  match v with
  | JNull => "None"
  | JBool true => "True"
  | JBool false => "False"
  | JInt n => str_of_Z n
  | JStr s => s
  end.

(** [a == b]; [True == 1] and [False == 0] hold in Python. *)
Definition eqb (a b : Json) : bool :=
  match a, b with
  | JNull, JNull => true
  | JStr s, JStr t => String.eqb s t
  | JInt n, JInt m => n =? m
  | JBool x, JBool y => Bool.eqb x y
  | JBool x, JInt m | JInt m, JBool x => (if x then 1 else 0) =? m
  | _, _ => false
  end.

(** [v in l] *)
Definition elem (v : Json) (l : list Json) : bool := existsb (eqb v) l.

(** [needle in hay] on strings. *)
Fixpoint contains (needle hay : string) : bool :=
  if String.prefix needle hay then true
  else match hay with
       | EmptyString => false
       | String _ rest => contains needle rest
       end.

(** [s.replace(old, new)]: the occurrences of [old] are replaced from left
    to right without overlap; [skip] counts the characters of a match that
    are still to be dropped. *)
Fixpoint replace_go (old new : string) (skip : nat) (s : string) : string :=
  match s with
  | EmptyString =>
      match old with EmptyString => new | _ => EmptyString end
  | String c rest =>
      match skip with
      | S k => replace_go old new k rest
      | O =>
          if String.prefix old s
          then new +:+ match old with
                       | EmptyString => String c (replace_go old new O rest)
                       | _ => replace_go old new (Nat.pred (String.length old)) rest
                       end
          else String c (replace_go old new O rest)
      end
  end.

Definition replace (old new s : string) : string := replace_go old new O s.

(** The characters [int()] strips from both ends. *)
Definition is_space (c : ascii) : bool :=
  let n := Z.of_nat (nat_of_ascii c) in
  ((9 <=? n) && (n <=? 13)) || ((28 <=? n) && (n <=? 32)).

Definition digit_val (c : ascii) : option Z :=
  let n := Z.of_nat (nat_of_ascii c) in
  if (48 <=? n) && (n <=? 57) then Some (n - 48) else None.

Fixpoint lstrip (l : list ascii) : list ascii :=
  match l with
  | c :: rest => if is_space c then lstrip rest else l
  | [] => []
  end.

Definition strip (l : list ascii) : list ascii :=
  rev (lstrip (rev (lstrip l))).

(** Where the scan of a decimal literal stands: nothing read yet, a digit
    just read, or an underscore just read. *)
Inductive Scan := AtStart | AfterDigit | AfterUnderscore.

(** Digits of a decimal literal; single underscores may separate digits. *)
Fixpoint int_digits (l : list ascii) (acc : Z) (st : Scan) : option Z :=
  match l with
  | [] => match st with AfterDigit => Some acc | _ => None end
  | c :: rest =>
      match digit_val c with
      | Some d => int_digits rest (10 * acc + d) AfterDigit
      | None =>
          if Ascii.eqb c "_"%char
          then match st with
               | AfterDigit => int_digits rest acc AfterUnderscore
               | _ => None
               end
          else None
      end
  end.

(** [int(s)] in base ten; [None] stands for [ValueError].  Only ASCII
    digits and spaces are recognised, and the interpreter's limit on the
    number of digits is not modelled. *)
Definition int (s : string) : option Z :=
  match strip (list_ascii_of_string s) with
  | c :: rest =>
      if Ascii.eqb c "-"%char then Z.opp <$> int_digits rest 0 AtStart
      else if Ascii.eqb c "+"%char then int_digits rest 0 AtStart
      else int_digits (c :: rest) 0 AtStart
  | [] => None
  end.

End Py.

Import Py.

(** ** Dates: [datetime.strptime(s, "%Y-%m-%d")] and [timedelta(days=n)]

    A [datetime] is the number of microseconds since 1970-01-01T00:00 on
    the (naive) local clock. *)

Module Dates.

Definition microseconds_per_day : Z := 86400 * 1000000.

(** [timedelta(days=n)] *)
Definition timedelta_days (n : Z) : Z := n * microseconds_per_day.

Definition is_leap (y : Z) : bool :=
  ((y mod 4 =? 0) && negb (y mod 100 =? 0)) || (y mod 400 =? 0).

Definition days_in_month (y m : Z) : Z :=
  if m =? 2 then (if is_leap y then 29 else 28)
  else if (m =? 4) || (m =? 6) || (m =? 9) || (m =? 11) then 30
  else 31.

(** Days from 1970-01-01 to the given day of the proleptic Gregorian
    calendar. *)
Definition days_from_civil (y m d : Z) : Z :=
  let y' := if m <=? 2 then y - 1 else y in
  let era := y' / 400 in
  let yoe := y' - era * 400 in
  let doy := (153 * (if 2 <? m then m - 3 else m + 9) + 2) / 5 + d - 1 in
  let doe := yoe * 365 + yoe / 4 - yoe / 100 + doy in
  era * 146097 + doe - 719468.

(** [%Y]: exactly four digits. *)
Definition directive_Y (l : list ascii) : option (Z * list ascii) :=
  match l with
  | a :: b :: c :: d :: rest =>
      match digit_val a, digit_val b, digit_val c, digit_val d with
      | Some a, Some b, Some c, Some d =>
          Some (1000 * a + 100 * b + 10 * c + d, rest)
      | _, _, _, _ => None
      end
  | _ => None
  end.

(** [%m]: the alternatives [1[0-2]], [0[1-9]], [[1-9]], tried in that
    order. *)
Definition directive_m (l : list ascii) : option (Z * list ascii) :=
  match l with
  | a :: rest =>
      match digit_val a with
      | Some x =>
          let two :=
            match rest with
            | b :: rest' =>
                match digit_val b with
                | Some y =>
                    if ((x =? 1) && (y <=? 2)) || ((x =? 0) && (1 <=? y))
                    then Some (10 * x + y, rest') else None
                | None => None
                end
            | [] => None
            end in
          match two with
          | Some r => Some r
          | None => if 1 <=? x then Some (x, rest) else None
          end
      | None => None
      end
  | [] => None
  end.

(** [%d]: the alternatives [3[01]], [[12]\d], [0[1-9]], [[1-9]] and a
    space followed by [[1-9]], tried in that order. *)
Definition directive_d (l : list ascii) : option (Z * list ascii) :=
  match l with
  | a :: rest =>
      match digit_val a with
      | Some x =>
          let two :=
            match rest with
            | b :: rest' =>
                match digit_val b with
                | Some y =>
                    if ((x =? 3) && (y <=? 1)) || (x =? 1) || (x =? 2)
                       || ((x =? 0) && (1 <=? y))
                    then Some (10 * x + y, rest') else None
                | None => None
                end
            | [] => None
            end in
          match two with
          | Some r => Some r
          | None => if 1 <=? x then Some (x, rest) else None
          end
      | None =>
          if Ascii.eqb a " "%char
          then match rest with
               | b :: rest' =>
                   match digit_val b with
                   | Some y => if 1 <=? y then Some (y, rest') else None
                   | None => None
                   end
               | [] => None
               end
          else None
      end
  | [] => None
  end.

Definition expect (c : ascii) (l : list ascii) : option (list ascii) :=
  match l with
  | x :: rest => if Ascii.eqb x c then Some rest else None
  | [] => None
  end.

(** [datetime.strptime(s, "%Y-%m-%d")]; [None] stands for the
    [ValueError] raised when the text does not match, when text remains
    after the match, or when the fields are not a date. *)
Definition strptime_ymd (s : string) : option Z :=
  '(y, l) ← directive_Y (list_ascii_of_string s);
  l ← expect "-"%char l;
  '(m, l) ← directive_m l;
  l ← expect "-"%char l;
  '(d, l) ← directive_d l;
  match l with
  | [] =>
      if (1 <=? y) && (d <=? days_in_month y m)
      then Some (days_from_civil y m d * microseconds_per_day)
      else None
  | _ :: _ => None
  end.

End Dates.

(** ** Module constants *)

Definition FIELD_KEYS : gmap string string :=
  list_to_map
    [ ("apk_verzonden_op", "7f23d557432ba403b5534be430151b827384ec43");
      ("apk_score", "b0d1e96af884d111b66f812ee4293735393f1624");
      ("email_sequence_status", "22d33c7f119119e178f391a272739c571cf2e29b");
      ("laatste_email", "753f37a1abc8e161c7982c1379a306b21fae1bab");
      ("typeform_response_id", "d3b5fc1d2cb519aac33d381bc3806c5c5fef734e");
      ("verbeterpunten", "1f61f3dc8f0d5396c12eaa713c62b2ad1d71f794") ].

(** [FIELD_KEYS[name]] *)
Definition field_key (name : string) : string := FIELD_KEYS !!! name.

Record Schedule := { email_num : Z; day : Z; template_id : Z }.

(** Email sequence schedule (days after APK sent). *)
Definition EMAIL_SCHEDULE : list Schedule :=
  [ {| email_num := 1; day := 1; template_id := 63 |};
    {| email_num := 2; day := 3; template_id := 64 |};
    {| email_num := 3; day := 5; template_id := 65 |};
    {| email_num := 4; day := 8; template_id := 66 |};
    {| email_num := 5; day := 11; template_id := 67 |};
    {| email_num := 6; day := 14; template_id := 68 |};
    {| email_num := 7; day := 21; template_id := 69 |};
    {| email_num := 8; day := 30; template_id := 70 |} ].

(** The templates, by e-mail number; of a template only the subject is
    kept, the HTML body plays no part in the control flow (its two
    placeholders, [first_name] and [company], are always supplied). *)
Definition EMAIL_TEMPLATES : gmap Z string :=
  list_to_map
    [ (1, "Je Recruitment APK - alles goed ontvangen?");
      (2, "Heb je de APK al kunnen bekijken?");
      (3, "Ben je al ergens mee gestart?");
      (4, "Recruitment tip: Time-to-hire halveren");
      (5, "Recruitment tip: Candidate experience als geheim wapen");
      (6, "Recruitment tip: Meten = weten");
      (7, "Zullen we je APK samen doornemen?");
      (8, "Laatste check - hoe staat het met jullie recruitment?") ].

(** ** The world around the service *)

(** A deal as the API returns it: a dictionary from field keys to values. *)
Abbreviation Deal := (gmap string Json).

(** The CRM: the deal stored under every deal id. *)
Abbreviation Crm := (Z -> gmap string Json).

(** How the remote end of one network exchange behaves. *)
Inductive Peer :=
| Up       (* carries the request out *)
| Denies   (* answers, refusing the request *)
| Down     (* connection error, or an HTTP status other than 200/201 *)
| Silent.  (* accepts the connection and never answers *)

#[global] Instance Peer_eq_dec : EqDecision Peer.
Proof. solve_decision. Defined.

(** What the calling thread sees of a blocking exchange. *)
Inductive Exchange := Served | Refused | Errored | Hangs.

(** A socket operation under a timeout in seconds, [None] when no timeout
    is set: a silent peer raises a timeout error when there is one, and
    blocks the thread for ever when there is none. *)
Definition exchange (timeout : option Z) (p : Peer) : Exchange :=
  match p with
  | Up => Served
  | Denies => Refused
  | Down => Errored
  | Silent => match timeout with Some _ => Errored | None => Hangs end
  end.

(** The observable effects of a run, oldest first. *)
Inductive Event :=
| EvSleep (microseconds : Z)
| EvSmtp (deal_id num : Z) (to_email subject : string) (delivered : bool)
| EvPut (deal_id : Z) (key : string) (value : Json) (applied : bool).

#[global] Instance Event_eq_dec : EqDecision Event.
Proof. solve_decision. Defined.

Record World := { crm : Crm; events : list Event }.

Definition emit (e : Event) (w : World) : World :=
  {| crm := crm w; events := events w ++ [e] |}.

(** Everything one run does not control, indexed by the e-mail number of
    the loop iteration in which it is consulted. *)
Record Env := {
  SMTP_PASS : option string;
  (** [datetime.now()], read when the date is parsed (index 0) and at the
      top of iteration [n] *)
  now : Z -> Z;
  (** what other users of the CRM did since the previous iteration *)
  external : Z -> Crm -> Crm;
  (** the API during the [GET] of [get_sequence_status] *)
  status_api : Z -> Peer;
  (** the API during the [GET] of [get_last_email_sent] *)
  last_api : Z -> Peer;
  (** the SMTP server during the session of [send_sequence_email] *)
  smtp : Z -> Peer;
  (** the API during the [PUT] of the last e-mail field *)
  put_last_api : Z -> Peer;
  (** the API during the [PUT] of the status field *)
  put_status_api : Z -> Peer
}.

(** ** The service *)

(** A JSON body of the API: [{"success": ..., "data": ...}]. *)
Record Response := { success : bool; data : option (gmap string Json) }.

(** The HTTP methods; the module issues no [POST] for a deal, and that
    branch of [pipedrive_request] is left out. *)
Inductive Method := GET | PUT | OTHER.

(** [pipedrive_request(method, f"deals/{deal_id}", data)]: every request
    carries [timeout=30], and any exception is caught and gives [None].
    A [PUT] that is carried out replaces the fields of [body] in the
    stored deal.  A deal id the CRM does not know is one more way for the
    API to be [Down]. *)
Definition pipedrive_request (p : Peer) (method : Method) (deal_id : Z)
    (body : gmap string Json) (w : World) : World * option Response :=
  match method with
  | OTHER => (w, None)
  | _ =>
      match exchange (Some 30) p with
      | Served =>
          match method with
          | GET =>
              (w, Some {| success := true; data := Some (crm w deal_id) |})
          | PUT | OTHER =>
              let deal := body ∪ crm w deal_id in
              ({| crm := fun d => if d =? deal_id then deal else crm w d;
                  events := events w |},
               Some {| success := true; data := Some deal |})
          end
      | Refused => (w, Some {| success := false; data := None |})
      | Errored | Hangs => (w, None)
      end
  end.

(** Get deal information including person and org. *)
Definition get_deal_info (p : Peer) (deal_id : Z) (w : World)
    : option (gmap string Json) :=
  match snd (pipedrive_request p GET deal_id ∅ w) with
  | Some result => if success result then data result else None
  | None => None
  end.

(** Update a custom field on a deal. *)
Definition update_deal_field (p : Peer) (deal_id : Z) (key : string)
    (value : Json) (w : World) : World * bool :=
  let '(w', result) := pipedrive_request p PUT deal_id {[ key := value ]} w in
  let ok := match result with Some r => success r | None => false end in
  (emit (EvPut deal_id key value ok) w', ok).

(** [if deal:] a dictionary is true when it is not empty. *)
Definition deal_truthy (deal : option (gmap string Json)) : bool :=
  match deal with
  | Some d => bool_decide (d ≠ ∅)
  | None => false
  end.

(** Get the current email sequence status for a deal. *)
Definition get_sequence_status (p : Peer) (deal_id : Z) (w : World) : Json :=
  match get_deal_info p deal_id w with
  | Some deal =>
      if deal_truthy (Some deal)
      then default (JStr "") (deal !! field_key "email_sequence_status")
      else JStr ""
  | None => JStr ""
  end.

(** The number a stored last e-mail value stands for. *)
Definition last_email_number (last_email : Json) : Z :=
  if truthy last_email && Py.contains "Email" (Py.str last_email)
  then match Py.int (Py.replace "Email " "" (Py.str last_email)) with
       | Some n => n
       | None => 0
       end
  else 0.

(** Get the last email number sent for a deal. *)
Definition get_last_email_sent (p : Peer) (deal_id : Z) (w : World) : Z :=
  match get_deal_info p deal_id w with
  | Some deal =>
      if deal_truthy (Some deal)
      then last_email_number
             (default (JStr "") (deal !! field_key "laatste_email"))
      else 0
  | None => 0
  end.

(** What a call gives back to its caller: a value, or nothing at all when
    the thread blocks for ever inside it. *)
Inductive Return (A : Type) :=
| Returns (a : A)
| NeverReturns.
Arguments Returns {A} a.
Arguments NeverReturns {A}.

(** [bool(SMTP_PASS)] *)
Definition configured (pass : option string) : bool :=
  match pass with
  | Some s => negb (String.eqb s "")
  | None => false
  end.

(** The tail of [send_sequence_email], once the SMTP session has closed:
    the deal records the e-mail, and the last one marks the sequence
    complete.  The outcome of either update is ignored. *)
Definition record_delivery (env : Env) (deal_id num : Z)
    (to_email subject : string) (w : World) : World :=
  let w := emit (EvSmtp deal_id num to_email subject true) w in
  let w :=
    fst (update_deal_field (put_last_api env num) deal_id
           (field_key "laatste_email")
           (JStr ("Email " +:+ Py.str_of_Z num)) w) in
  if num =? 8
  then fst (update_deal_field (put_status_api env num) deal_id
              (field_key "email_sequence_status") (JStr "Voltooid") w)
  else w.

(** Send a specific email from the sequence.  The SMTP session is opened
    with [smtplib.SMTP(SMTP_HOST, SMTP_PORT)], that is without a timeout;
    whatever is raised inside it is caught and gives [False]. *)
Definition send_sequence_email (env : Env) (deal_id num : Z)
    (to_email first_name company : string) (w : World)
    : World * Return bool :=
  if negb (configured (SMTP_PASS env)) then (w, Returns false)
  else
    match EMAIL_TEMPLATES !! num with
    | None => (w, Returns false)
    | Some subject =>
        match exchange None (smtp env num) with
        | Hangs => (w, NeverReturns)
        | Refused | Errored =>
            (emit (EvSmtp deal_id num to_email subject false) w,
             Returns false)
        | Served =>
            (record_delivery env deal_id num to_email subject w,
             Returns true)
        end
    end.

(** How a run ends: the loop ran off the schedule, the status check of
    iteration [num] stopped it, or the thread is stuck in the send of
    iteration [num]. *)
Inductive Outcome :=
| Finished
| Stopped (num : Z) (status : Json)
| Stuck (num : Z).

Definition stop_statuses : list Json := [JStr "Gepauzeerd"; JStr "Voltooid"].

(** The top of one loop iteration: the thread sleeps until the send date
    when that lies ahead, and meanwhile the other users of the CRM have
    done what they do.  The result is the world the checks run in. *)
Definition arrive (env : Env) (sent_date : Z) (s : Schedule) (w : World)
    : World :=
  let send_date := sent_date + Dates.timedelta_days (day s) in
  let wait_seconds := send_date - now env (email_num s) in
  let w := if 0 <? wait_seconds then emit (EvSleep wait_seconds) w else w in
  {| crm := external env (email_num s) (crm w); events := events w |}.

(** The [for] loop of [process_email_sequence] over the rest of the
    schedule. *)
Fixpoint run_schedule (env : Env) (deal_id : Z)
    (to_email first_name company : string) (sent_date : Z)
    (schedule : list Schedule) (w : World) : World * Outcome :=
  match schedule with
  | [] => (w, Finished)
  | s :: rest =>
      let w := arrive env sent_date s w in
      let status :=
        get_sequence_status (status_api env (email_num s)) deal_id w in
      if Py.elem status stop_statuses then (w, Stopped (email_num s) status)
      else
        let last_sent :=
          get_last_email_sent (last_api env (email_num s)) deal_id w in
        if email_num s <=? last_sent
        then run_schedule env deal_id to_email first_name company sent_date
               rest w
        else
          match send_sequence_email env deal_id (email_num s)
                  to_email first_name company w with
          | (w, Returns _) =>
              run_schedule env deal_id to_email first_name company sent_date
                rest w
          | (w, NeverReturns) => (w, Stuck (email_num s))
          end
  end.

(** Process the email sequence for a deal. *)
Definition process_email_sequence (env : Env) (deal_id : Z)
    (to_email first_name company apk_sent_date : string) (w : World)
    : World * Outcome :=
  let sent_date :=
    match Dates.strptime_ymd apk_sent_date with
    | Some date => date
    | None => now env 0
    end in
  run_schedule env deal_id to_email first_name company sent_date
    EMAIL_SCHEDULE w.

(** One call of [start_email_sequence]: its arguments and the
    surroundings its thread meets. *)
Record Invocation := {
  inv_env : Env;
  inv_to_email : string;
  inv_first_name : string;
  inv_company : string;
  inv_apk_sent_date : string
}.

(** Runs for one deal, one after the other. *)
Fixpoint run_in_turn (deal_id : Z) (runs : list Invocation) (w : World)
    : World :=
  match runs with
  | [] => w
  | r :: later =>
      run_in_turn deal_id later
        (fst (process_email_sequence (inv_env r) deal_id (inv_to_email r)
                (inv_first_name r) (inv_company r) (inv_apk_sent_date r) w))
  end.

(** ** What the store records and what a trace shows *)

(** The world before anything has happened. *)
Definition fresh (c : Crm) : World := {| crm := c; events := [] |}.

(** The value of a field as a reader finds it. *)
Definition field (c : Crm) (deal_id : Z) (name : string) : Json :=
  default (JStr "") (c deal_id !! field_key name).

(** The recorded status and the recorded last e-mail number of a deal. *)
Definition recorded_status (c : Crm) (deal_id : Z) : Json :=
  field c deal_id "email_sequence_status".

Definition recorded_last (c : Crm) (deal_id : Z) : Z :=
  last_email_number (field c deal_id "laatste_email").

(** The e-mail numbers of the SMTP sessions opened for a deal, and of
    those that delivered their message. *)
Definition attempted (deal_id : Z) (evs : list Event) : list Z :=
  omap (fun e => match e with
                 | EvSmtp d n _ _ _ => if d =? deal_id then Some n else None
                 | _ => None
                 end) evs.

Definition delivered (deal_id : Z) (evs : list Event) : list Z :=
  omap (fun e => match e with
                 | EvSmtp d n _ _ true => if d =? deal_id then Some n else None
                 | _ => None
                 end) evs.

(** The store writes a trace holds: key, value and whether the write was
    applied. *)
Definition writes (deal_id : Z) (evs : list Event)
    : list (string * Json * bool) :=
  omap (fun e => match e with
                 | EvPut d k v ok =>
                     if d =? deal_id then Some (k, v, ok) else None
                 | _ => None
                 end) evs.



(** ** What the surroundings may be assumed to do *)



(** The other users of the CRM never lower the last e-mail number. *)
Definition never_lowers (env : Env) (deal_id : Z) : Prop :=
  forall n c,
    recorded_last c deal_id <= recorded_last (external env n c) deal_id.

(** Every read of the last e-mail number is answered from the store. *)
Definition reads_last (env : Env) : Prop :=
  forall n, last_api env n = Up.

(** Every write of the last e-mail number is applied. *)
Definition writes_last (env : Env) : Prop :=
  forall n, put_last_api env n = Up.

(** No e-mail was delivered twice, and none lies above the number the
    deal records. *)
Definition sent_once (deal_id : Z) (w : World) : Prop :=
  NoDup (delivered deal_id (events w))
  /\ forall n, n ∈ delivered deal_id (events w) ->
               n <= recorded_last (crm w) deal_id.

(** What is asked of the surroundings of a run for no e-mail to go out
    twice: reads answered from the store, writes applied, and nobody
    lowering the last e-mail number. *)
Definition store_consistent (deal_id : Z) (r : Invocation) : Prop :=
  reads_last (inv_env r) /\ writes_last (inv_env r)
  /\ never_lowers (inv_env r) deal_id.

(** ** Scenes to run the service in *)

Module Scene.

(** A deal as the webhook handler creates it. *)
Definition deal_active : gmap string Json :=
  {[ "id" := JInt 7;
     "22d33c7f119119e178f391a272739c571cf2e29b" := JStr "Actief" ]}.

(** The same deal with e-mail 5 recorded as the last one sent. *)
Definition deal_at_five : gmap string Json :=
  <[ "753f37a1abc8e161c7982c1379a306b21fae1bab" := JStr "Email 5" ]>
    deal_active.

Definition office (deal : gmap string Json) : Crm := fun _ => deal.

Definition always (p : Peer) : Z -> Peer := fun _ => p.

(** [p] during iteration [k], [Up] otherwise. *)
Definition only_at (k : Z) (p : Peer) : Z -> Peer :=
  fun n => if n =? k then p else Up.

(** [Up] during iteration [k], [p] otherwise. *)
Definition except_at (k : Z) (p : Peer) : Z -> Peer :=
  fun n => if n =? k then Up else p.

Definition nobody : Z -> Crm -> Crm := fun _ c => c.

(** A colleague pauses every sequence just before iteration [k]. *)
Definition pause_before (k : Z) : Z -> Crm -> Crm :=
  fun n c =>
    if n =? k
    then fun d =>
           <[ "22d33c7f119119e178f391a272739c571cf2e29b" := JStr "Gepauzeerd" ]>
             (c d)
    else c.

(** A scene: the password is set and the clock stands at the epoch. *)
Definition scene (others : Z -> Crm -> Crm)
    (status_get last_get mail last_put status_put : Z -> Peer) : Env :=
  {| SMTP_PASS := Some "geheim";
     now := fun _ => 0;
     external := others;
     status_api := status_get;
     last_api := last_get;
     smtp := mail;
     put_last_api := last_put;
     put_status_api := status_put |}.

(** Everything works and nobody interferes. *)
Definition calm : Env :=
  scene nobody (always Up) (always Up) (always Up) (always Up) (always Up).

(** The deal is paused before e-mail 3. *)
Definition paused_before_three : Env :=
  scene (pause_before 3) (always Up) (always Up) (always Up) (always Up)
    (always Up).

(** The SMTP server refuses e-mail 2. *)
Definition second_refused : Env :=
  scene nobody (always Up) (always Up) (only_at 2 Denies) (always Up)
    (always Up).

(** The SMTP server never answers during e-mail 1. *)
Definition first_unanswered : Env :=
  scene nobody (always Up) (always Up) (only_at 1 Silent) (always Up)
    (always Up).

(** The API is down for both reads of the first check. *)
Definition first_check_unread : Env :=
  scene nobody (only_at 1 Down) (only_at 1 Down) (always Up) (always Up)
    (always Up).

(** The API is down for every read of the last e-mail, and the SMTP
    server is up for e-mail 1 only. *)
Definition last_unreadable : Env :=
  scene nobody (always Up) (always Down) (except_at 1 Down) (always Up)
    (always Up).

Definition invocation (env : Env) (date : string) : Invocation :=
  {| inv_env := env; inv_to_email := "an@voorbeeld.nl";
     inv_first_name := "An"; inv_company := "Voorbeeld BV";
     inv_apk_sent_date := date |}.

End Scene.

(** ** Further views of a trace *)

(** The lengths of the sleeps a trace holds, in microseconds. *)
Definition sleeps (evs : list Event) : list Z :=
  omap (fun e => match e with EvSleep t => Some t | _ => None end) evs.

(** How far ahead the send date of a step lies when its iteration
    begins: [wait_seconds], in microseconds. *)
Definition wait_of (env : Env) (sent_date : Z) (s : Schedule) : Z :=
  sent_date + Dates.timedelta_days (day s) - now env (email_num s).

(** What a delivery of e-mail [num] writes to the deal, in order. *)
Definition delivery_writes (num : Z) : list (string * Json) :=
  (field_key "laatste_email", JStr ("Email " +:+ Py.str_of_Z num))
  :: (if num =? 8
      then [(field_key "email_sequence_status", JStr "Voltooid")]
      else []).

(** ** Further scenes *)

Module Scene2.

(** A deal whose last e-mail field holds the bare number 5. *)
Definition deal_number_five : gmap string Json :=
  <[ "753f37a1abc8e161c7982c1379a306b21fae1bab" := JInt 5 ]>
    Scene.deal_active.


(** The API never applies a write; everything else works. *)
Definition writes_lost : Env :=
  Scene.scene Scene.nobody (Scene.always Up) (Scene.always Up)
    (Scene.always Up) (Scene.always Down) (Scene.always Down).

End Scene2.


(** ** The date the webhook handler passes on *)

Module Calendar.

Definition digit_char (k : Z) : ascii := ascii_of_nat (Z.to_nat (48 + k)).

(** [datetime(y, m, d, ...).strftime("%Y-%m-%d")] for a year of four
    digits: the year, and month and day padded with a zero to two digits.
    (Years below 1000 are printed without padding by the C library; they
    are outside this model.) *)
Definition strftime_ymd (y m d : Z) : string :=
  string_of_list_ascii
    [digit_char (y / 1000); digit_char (y / 100 mod 10);
     digit_char (y / 10 mod 10); digit_char (y mod 10); "-"%char;
     digit_char (m / 10); digit_char (m mod 10); "-"%char;
     digit_char (d / 10); digit_char (d mod 10)].

End Calendar.

(** ** The plain-text part of an e-mail *)

(** The line feed. *)
Definition newline : string := String "010"%char EmptyString.

(** Plain text fallback: the [text_content] that [send_sequence_email]
    derives from the formatted body. *)
Definition text_content (body : string) : string :=
  let text := Py.replace "</p>" (newline +:+ newline)
                (Py.replace "<p>" "" body) in
  let text := Py.replace "<br>" newline text in
  let text := Py.replace "</strong>" "" (Py.replace "<strong>" "" text) in
  let text := Py.replace "</em>" "" (Py.replace "<em>" "" text) in
  text.

(** ** Checks of the Python operations *)

Example int_plain : Py.int "3" = Some 3.
Proof. reflexivity. Qed.
Example int_spaces : Py.int "  12 " = Some 12.
Proof. reflexivity. Qed.
Example int_underscore : Py.int "1_000" = Some 1000.
Proof. reflexivity. Qed.
Example int_bad : Py.int "Email3" = None.
Proof. reflexivity. Qed.
Example replace_email : Py.replace "Email " "" "Email 7" = "7".
Proof. reflexivity. Qed.
Example replace_empty_old : Py.replace "" "-" "abc" = "-a-b-c-".
Proof. reflexivity. Qed.
Example str_eight : Py.str_of_Z 8 = "8".
Proof. reflexivity. Qed.
Example strptime_epoch : Dates.strptime_ymd "1970-01-01" = Some 0.
Proof. reflexivity. Qed.
Example strptime_2024 :
  Dates.strptime_ymd "2024-03-01" = Some (19783 * 86400000000).
Proof. reflexivity. Qed.
Example strptime_short :
  Dates.strptime_ymd "2024-3-1" = Some (19783 * 86400000000).
Proof. reflexivity. Qed.
Example strptime_feb30 : Dates.strptime_ymd "2024-02-30" = None.
Proof. reflexivity. Qed.
Example strptime_words : Dates.strptime_ymd "gisteren" = None.
Proof. reflexivity. Qed.
Example strptime_time : Dates.strptime_ymd "2024-03-01T10:00" = None.
Proof. reflexivity. Qed.

(** ** Lemmas *)

Lemma key_status :
  field_key "email_sequence_status" = "22d33c7f119119e178f391a272739c571cf2e29b".
Proof. reflexivity. Qed.

Lemma key_last :
  field_key "laatste_email" = "753f37a1abc8e161c7982c1379a306b21fae1bab".
Proof. reflexivity. Qed.

Lemma keys_differ : field_key "laatste_email" <> field_key "email_sequence_status".
Proof. rewrite key_status, key_last. discriminate. Qed.

Lemma template_range n subject :
  EMAIL_TEMPLATES !! n = Some subject -> 1 <= n <= 8.
Proof.
  intros H. destruct (decide (1 <= n <= 8)) as [|Hn]; [done|]. exfalso.
  unfold EMAIL_TEMPLATES in H. cbn [list_to_map foldr uncurry fst snd] in H.
  rewrite !lookup_insert_ne in H by lia.
  by rewrite lookup_empty in H.
Qed.

Lemma template_exists n : 1 <= n <= 8 -> is_Some (EMAIL_TEMPLATES !! n).
Proof.
  intros H.
  assert (n = 1 \/ n = 2 \/ n = 3 \/ n = 4 \/ n = 5 \/ n = 6 \/ n = 7 \/ n = 8)
    as Hn by lia.
  destruct Hn as [->|[->|[->|[->|[->|[->|[->| ->]]]]]]]; by eexists.
Qed.

Lemma last_email_round_trip n :
  1 <= n <= 8 -> last_email_number (JStr ("Email " +:+ Py.str_of_Z n)) = n.
Proof.
  intros H.
  assert (n = 1 \/ n = 2 \/ n = 3 \/ n = 4 \/ n = 5 \/ n = 6 \/ n = 7 \/ n = 8)
    as Hn by lia.
  destruct Hn as [->|[->|[->|[->|[->|[->|[->| ->]]]]]]]; reflexivity.
Qed.

(** *** The readers *)

Lemma get_deal_info_up deal_id w :
  get_deal_info Up deal_id w = Some (crm w deal_id).
Proof. reflexivity. Qed.

Lemma get_deal_info_failed p deal_id w :
  p <> Up -> get_deal_info p deal_id w = None.
Proof. by destruct p. Qed.


Lemma get_sequence_status_failed p deal_id w :
  p <> Up -> get_sequence_status p deal_id w = JStr "".
Proof.
  intros Hp. unfold get_sequence_status. by rewrite get_deal_info_failed.
Qed.

Lemma get_last_email_sent_up deal_id w :
  get_last_email_sent Up deal_id w = recorded_last (crm w) deal_id.
Proof.
  unfold get_last_email_sent, recorded_last, field.
  rewrite get_deal_info_up. unfold deal_truthy.
  case_bool_decide as Hd; [done|].
  by rewrite Hd, lookup_empty.
Qed.

Lemma get_last_email_sent_failed p deal_id w :
  p <> Up -> get_last_email_sent p deal_id w = 0.
Proof.
  intros Hp. unfold get_last_email_sent. by rewrite get_deal_info_failed.
Qed.

(** *** The writer *)

Lemma update_deal_field_events p deal_id key value w :
  events (fst (update_deal_field p deal_id key value w))
  = events w ++ [EvPut deal_id key value (snd (update_deal_field p deal_id key value w))].
Proof. by destruct p. Qed.

Lemma update_deal_field_up deal_id key value w d :
  crm (fst (update_deal_field Up deal_id key value w)) d
  = if d =? deal_id then <[key := value]> (crm w deal_id) else crm w d.
Proof.
  cbn. destruct (d =? deal_id); [|done].
  by rewrite insert_union_singleton_l.
Qed.

Lemma update_deal_field_applied deal_id key value w :
  snd (update_deal_field Up deal_id key value w) = true.
Proof. reflexivity. Qed.

Lemma update_deal_field_failed p deal_id key value w :
  p <> Up ->
  crm (fst (update_deal_field p deal_id key value w)) = crm w
  /\ snd (update_deal_field p deal_id key value w) = false.
Proof. by destruct p. Qed.

Lemma field_after_update deal_id key value w name :
  field (crm (fst (update_deal_field Up deal_id key value w))) deal_id name
  = if decide (key = field_key name) then value else field (crm w) deal_id name.
Proof.
  unfold field. rewrite update_deal_field_up, Z.eqb_refl.
  rewrite lookup_insert. by case_decide.
Qed.

Lemma field_after_update_other p deal_id key value w name :
  key <> field_key name ->
  field (crm (fst (update_deal_field p deal_id key value w))) deal_id name
  = field (crm w) deal_id name.
Proof.
  intros Hk. destruct (decide (p = Up)) as [->|Hp].
  - rewrite field_after_update. by case_decide.
  - by destruct (update_deal_field_failed p deal_id key value w Hp) as [-> _].
Qed.

(** *** Traces *)

Lemma attempted_app deal_id l1 l2 :
  attempted deal_id (l1 ++ l2) = attempted deal_id l1 ++ attempted deal_id l2.
Proof. apply omap_app. Qed.

Lemma delivered_app deal_id l1 l2 :
  delivered deal_id (l1 ++ l2) = delivered deal_id l1 ++ delivered deal_id l2.
Proof. apply omap_app. Qed.

Lemma writes_app deal_id l1 l2 :
  writes deal_id (l1 ++ l2) = writes deal_id l1 ++ writes deal_id l2.
Proof. apply omap_app. Qed.


(** *** [send_sequence_email] *)

Lemma send_sequence_email_cases env deal_id num to_email first_name company w :
  let r := send_sequence_email env deal_id num to_email first_name company w in
  (r = (w, Returns false)
   /\ (configured (SMTP_PASS env) = false \/ EMAIL_TEMPLATES !! num = None))
  \/ (exists subject,
        r = (emit (EvSmtp deal_id num to_email subject false) w, Returns false)
        /\ configured (SMTP_PASS env) = true
        /\ EMAIL_TEMPLATES !! num = Some subject
        /\ (smtp env num = Denies \/ smtp env num = Down))
  \/ (r = (w, NeverReturns)
      /\ configured (SMTP_PASS env) = true
      /\ is_Some (EMAIL_TEMPLATES !! num)
      /\ smtp env num = Silent)
  \/ (exists subject,
        r = (record_delivery env deal_id num to_email subject w, Returns true)
        /\ configured (SMTP_PASS env) = true
        /\ EMAIL_TEMPLATES !! num = Some subject
        /\ smtp env num = Up).
Proof.
  unfold send_sequence_email.
  destruct (configured (SMTP_PASS env)); cbn [negb]; [|by left; auto].
  destruct (EMAIL_TEMPLATES !! num) as [subject|] eqn:Ht; [|by left; auto].
  destruct (smtp env num) eqn:Hs; cbn [exchange].
  - do 3 right. by exists subject.
  - right; left. exists subject. auto.
  - right; left. exists subject. auto.
  - do 2 right; left. eauto.
Qed.

(** What a delivery adds to the trace. *)
Lemma record_delivery_events env deal_id num to_email subject w :
  exists ok1 ok2,
    events (record_delivery env deal_id num to_email subject w)
    = events w
      ++ [EvSmtp deal_id num to_email subject true;
          EvPut deal_id (field_key "laatste_email")
            (JStr ("Email " +:+ Py.str_of_Z num)) ok1]
      ++ (if num =? 8
          then [EvPut deal_id (field_key "email_sequence_status")
                  (JStr "Voltooid") ok2]
          else []).
Proof.
  unfold record_delivery.
  eexists _, (snd (update_deal_field (put_status_api env num) deal_id _ _ _)).
  destruct (num =? 8);
    rewrite ?update_deal_field_events; cbn [emit events];
    rewrite <- ?app_assoc; cbn [app]; reflexivity.
Qed.

(** What a delivery leaves in the deal. *)
Lemma record_delivery_last env deal_id num to_email subject w :
  1 <= num <= 8 ->
  recorded_last (crm (record_delivery env deal_id num to_email subject w)) deal_id
  = if decide (put_last_api env num = Up) then num
    else recorded_last (crm w) deal_id.
Proof.
  intros Hn. unfold record_delivery, recorded_last.
  set (w1 := emit _ w).
  assert (field (crm (fst (update_deal_field (put_last_api env num) deal_id
             (field_key "laatste_email")
             (JStr ("Email " +:+ Py.str_of_Z num)) w1))) deal_id "laatste_email"
          = if decide (put_last_api env num = Up)
            then JStr ("Email " +:+ Py.str_of_Z num)
            else field (crm w) deal_id "laatste_email") as Hf.
  { case_decide as Hp.
    - rewrite Hp, field_after_update. by case_decide.
    - by destruct (update_deal_field_failed _ deal_id
                     (field_key "laatste_email")
                     (JStr ("Email " +:+ Py.str_of_Z num)) w1 Hp) as [-> _]. }
  destruct (num =? 8).
  - rewrite field_after_update_other by (symmetry; apply keys_differ).
    rewrite Hf. case_decide; [by apply last_email_round_trip | done].
  - rewrite Hf. case_decide; [by apply last_email_round_trip | done].
Qed.

(** *** The loop *)

Section Loop.

Context (env : Env) (deal_id : Z) (to_email first_name company : string)
        (sent_date : Z).

Local Abbreviation run :=
  (run_schedule env deal_id to_email first_name company sent_date).
Local Abbreviation send num w :=
  (send_sequence_email env deal_id num to_email first_name company w).

Lemma arrive_crm s w :
  crm (arrive env sent_date s w) = external env (email_num s) (crm w).
Proof. unfold arrive. by destruct (0 <? _). Qed.

Lemma arrive_events s w :
  events (arrive env sent_date s w) = events w
  \/ exists t, events (arrive env sent_date s w) = events w ++ [EvSleep t].
Proof. unfold arrive. destruct (0 <? _); cbn; eauto. Qed.

Lemma arrive_attempted s w :
  attempted deal_id (events (arrive env sent_date s w))
  = attempted deal_id (events w).
Proof.
  destruct (arrive_events s w) as [->|[t ->]]; [done|].
  rewrite attempted_app. cbn. apply app_nil_r.
Qed.

Lemma arrive_delivered s w :
  delivered deal_id (events (arrive env sent_date s w))
  = delivered deal_id (events w).
Proof.
  destruct (arrive_events s w) as [->|[t ->]]; [done|].
  rewrite delivered_app. cbn. apply app_nil_r.
Qed.

Lemma arrive_writes s w :
  writes deal_id (events (arrive env sent_date s w)) = writes deal_id (events w).
Proof.
  destruct (arrive_events s w) as [->|[t ->]]; [done|].
  rewrite writes_app. cbn. apply app_nil_r.
Qed.



(** *** One iteration *)



(** The iteration of a step that reaches the send. *)
Lemma uncovered_step_is_sent s rest w :
  Py.elem (get_sequence_status (status_api env (email_num s)) deal_id
             (arrive env sent_date s w)) stop_statuses = false ->
  get_last_email_sent (last_api env (email_num s)) deal_id
    (arrive env sent_date s w) < email_num s ->
  run (s :: rest) w
  = match send (email_num s) (arrive env sent_date s w) with
    | (w1, Returns _) => run rest w1
    | (w1, NeverReturns) => (w1, Stuck (email_num s))
    end.
Proof.
  intros Hgo Hlast. cbn [run_schedule]. rewrite Hgo.
  by rewrite (proj2 (Z.leb_gt _ _) Hlast).
Qed.

(** A send that returns [False] left the deal alone. *)
Lemma failed_send_writes_nothing num w :
  snd (send num w) = Returns false ->
  crm (fst (send num w)) = crm w
  /\ writes deal_id (events (fst (send num w))) = writes deal_id (events w)
  /\ delivered deal_id (events (fst (send num w)))
     = delivered deal_id (events w).
Proof.
  intros Hr.
  destruct (send_sequence_email_cases env deal_id num to_email first_name
              company w)
    as [[Hs _]|[(subject & Hs & _)|[[Hs _]|(subject & Hs & _)]]];
    rewrite Hs in *; cbn [fst snd emit crm events] in *; try done.
  rewrite writes_app, delivered_app. cbn. by rewrite !app_nil_r.
Qed.

(** C5. A step whose send fails is not recorded (the deal and the writes
    of the trace are as they were at the check) and the run goes on with
    the rest of the schedule. *)
Theorem failed_send_is_passed_over s rest w :
  let w0 := arrive env sent_date s w in
  Py.elem (get_sequence_status (status_api env (email_num s)) deal_id w0)
    stop_statuses = false ->
  get_last_email_sent (last_api env (email_num s)) deal_id w0 < email_num s ->
  snd (send (email_num s) w0) = Returns false ->
  run (s :: rest) w = run rest (fst (send (email_num s) w0))
  /\ crm (fst (send (email_num s) w0)) = crm w0
  /\ writes deal_id (events (fst (send (email_num s) w0)))
     = writes deal_id (events w0).
Proof.
  intros w0 Hgo Hlast Hfail.
  destruct (failed_send_writes_nothing _ _ Hfail) as (Hc & Hw & _).
  split; [|done].
  rewrite uncovered_step_is_sent by done. fold w0.
  destruct (send_sequence_email _ _ _ _ _ _ w0) as [w1 [b|]]; [done|].
  discriminate Hfail.
Qed.

(** C9, at the step where it breaks: the SMTP session has no timeout, so
    a server that never answers leaves the run stuck in the send. *)
Theorem silent_smtp_server_blocks_the_run s rest w :
  let w0 := arrive env sent_date s w in
  Py.elem (get_sequence_status (status_api env (email_num s)) deal_id w0)
    stop_statuses = false ->
  get_last_email_sent (last_api env (email_num s)) deal_id w0 < email_num s ->
  configured (SMTP_PASS env) = true ->
  is_Some (EMAIL_TEMPLATES !! email_num s) ->
  smtp env (email_num s) = Silent ->
  run (s :: rest) w = (w0, Stuck (email_num s)).
Proof.
  intros w0 Hgo Hlast Hpass [subject Ht] Hsilent.
  rewrite uncovered_step_is_sent by done. fold w0.
  unfold send_sequence_email. by rewrite Hpass, Ht, Hsilent.
Qed.

(** C10. When neither read of the check yields a deal, the status reads as
    the empty string and the last e-mail as 0, and the step is sent. *)
Theorem unread_deal_is_sent_to s rest w :
  let w0 := arrive env sent_date s w in
  s ∈ EMAIL_SCHEDULE ->
  deal_truthy (get_deal_info (status_api env (email_num s)) deal_id w0) = false ->
  deal_truthy (get_deal_info (last_api env (email_num s)) deal_id w0) = false ->
  get_sequence_status (status_api env (email_num s)) deal_id w0 = JStr ""
  /\ get_last_email_sent (last_api env (email_num s)) deal_id w0 = 0
  /\ run (s :: rest) w
     = match send (email_num s) w0 with
       | (w1, Returns _) => run rest w1
       | (w1, NeverReturns) => (w1, Stuck (email_num s))
       end.
Proof.
  intros w0 Hs Hst Hla.
  assert (get_sequence_status (status_api env (email_num s)) deal_id w0
          = JStr "") as Hstatus.
  { unfold get_sequence_status.
    destruct (get_deal_info (status_api env (email_num s)) deal_id w0);
      [by rewrite Hst | done]. }
  assert (get_last_email_sent (last_api env (email_num s)) deal_id w0 = 0)
    as Hlast.
  { unfold get_last_email_sent.
    destruct (get_deal_info (last_api env (email_num s)) deal_id w0);
      [by rewrite Hla | done]. }
  split; [done|]. split; [done|].
  apply uncovered_step_is_sent; fold w0.
  - by rewrite Hstatus.
  - rewrite Hlast. unfold EMAIL_SCHEDULE in Hs.
    repeat (apply elem_of_cons in Hs as [->|Hs]; [cbn; lia|]).
    by apply elem_of_nil in Hs.
Qed.

End Loop.

(** *** Whole runs *)

Section Runs.

Context (env : Env) (deal_id : Z) (to_email first_name company : string)
        (sent_date : Z).

Local Abbreviation run :=
  (run_schedule env deal_id to_email first_name company sent_date).
Local Abbreviation send num w :=
  (send_sequence_email env deal_id num to_email first_name company w).

Lemma record_delivery_attempted num subject w :
  attempted deal_id (events (record_delivery env deal_id num to_email subject w))
  = attempted deal_id (events w) ++ [num].
Proof.
  destruct (record_delivery_events env deal_id num to_email subject w)
    as (ok1 & ok2 & ->).
  rewrite !attempted_app. cbn. rewrite Z.eqb_refl.
  destruct (num =? 8); cbn; by rewrite ?app_nil_r.
Qed.

Lemma record_delivery_delivered num subject w :
  delivered deal_id (events (record_delivery env deal_id num to_email subject w))
  = delivered deal_id (events w) ++ [num].
Proof.
  destruct (record_delivery_events env deal_id num to_email subject w)
    as (ok1 & ok2 & ->).
  rewrite !delivered_app. cbn. rewrite Z.eqb_refl.
  destruct (num =? 8); cbn; by rewrite ?app_nil_r.
Qed.

(** A send that returns [True] delivered its e-mail and recorded it. *)
Lemma send_true num w :
  snd (send num w) = Returns true ->
  1 <= num <= 8
  /\ smtp env num = Up
  /\ exists subject,
       fst (send num w) = record_delivery env deal_id num to_email subject w.
Proof.
  intros Hr.
  destruct (send_sequence_email_cases env deal_id num to_email first_name
              company w)
    as [[Hs _]|[(subject & Hs & _)|[[Hs _]|(subject & Hs & _ & Ht & Hup)]]];
    rewrite Hs in *; cbn [fst snd] in *; try done.
  eauto using template_range.
Qed.

(** A send that does not return [True] delivered nothing and left the deal
    alone. *)
Lemma send_not_true num w :
  snd (send num w) <> Returns true ->
  crm (fst (send num w)) = crm w
  /\ delivered deal_id (events (fst (send num w)))
     = delivered deal_id (events w)
  /\ writes deal_id (events (fst (send num w))) = writes deal_id (events w).
Proof.
  intros Hr.
  destruct (send_sequence_email_cases env deal_id num to_email first_name
              company w)
    as [[Hs _]|[(subject & Hs & _)|[[Hs _]|(subject & Hs & _)]]];
    rewrite Hs in *; cbn [fst snd emit crm events] in *; try done.
  rewrite writes_app, delivered_app. cbn. by rewrite !app_nil_r.
Qed.


(** A send for a number above the recorded one does not lower it. *)
Lemma send_keeps_last_up num w :
  recorded_last (crm w) deal_id < num ->
  recorded_last (crm w) deal_id
  <= recorded_last (crm (fst (send num w))) deal_id.
Proof.
  intros Hlt.
  destruct (snd (send num w)) as [[|]|] eqn:Hr.
  - destruct (send_true _ _ Hr) as (Hn & _ & subject & ->).
    rewrite record_delivery_last by done. case_decide; lia.
  - destruct (send_not_true num w) as (-> & _); [by rewrite Hr | lia].
  - destruct (send_not_true num w) as (-> & _); [by rewrite Hr | lia].
Qed.


(** One iteration whose read of the last e-mail is answered leaves a
    number at least as high as the one it found at its check. *)
Lemma iteration_keeps_last_up s w :
  last_api env (email_num s) = Up ->
  recorded_last (crm (arrive env sent_date s w)) deal_id
  <= recorded_last (crm (fst (run [s] w))) deal_id.
Proof.
  intros Hread. cbn [run_schedule].
  set (w0 := arrive env sent_date s w).
  destruct (Py.elem _ stop_statuses); [done|].
  rewrite Hread, get_last_email_sent_up.
  destruct (email_num s <=? recorded_last (crm w0) deal_id) eqn:Hle; [done|].
  apply Z.leb_gt in Hle. pose proof (send_keeps_last_up _ _ Hle) as Hs.
  by destruct (send (email_num s) w0) as [w1 [b|]].
Qed.

(** Over a run whose reads of the last e-mail are answered, and beside
    users who do not lower it, the recorded number does not go down. *)
Lemma run_keeps_last_up schedule w :
  reads_last env -> never_lowers env deal_id ->
  recorded_last (crm w) deal_id
  <= recorded_last (crm (fst (run schedule w))) deal_id.
Proof.
  intros Hreads Hnl. revert w.
  induction schedule as [|s rest IH]; intros w; cbn [run_schedule]; [done|].
  set (w0 := arrive env sent_date s w).
  assert (recorded_last (crm w) deal_id <= recorded_last (crm w0) deal_id)
    as H0 by (unfold w0; rewrite arrive_crm; apply Hnl).
  destruct (Py.elem _ stop_statuses); [done|].
  rewrite (Hreads (email_num s)), get_last_email_sent_up.
  destruct (email_num s <=? recorded_last (crm w0) deal_id) eqn:Hle.
  - specialize (IH w0). lia.
  - apply Z.leb_gt in Hle. pose proof (send_keeps_last_up _ _ Hle) as Hs.
    destruct (send (email_num s) w0) as [w1 [b|]]; cbn [fst] in *.
    + specialize (IH w1). lia.
    + lia.
Qed.



(** Beside users who do not lower the last e-mail number, and with every
    read answered and every write applied, a run keeps [sent_once]. *)
Lemma run_sent_once schedule w :
  reads_last env -> writes_last env -> never_lowers env deal_id ->
  sent_once deal_id w -> sent_once deal_id (fst (run schedule w)).
Proof.
  intros Hreads Hwrites Hnl. revert w.
  induction schedule as [|s rest IH]; intros w Hw; cbn [run_schedule]; [done|].
  set (w0 := arrive env sent_date s w).
  assert (sent_once deal_id w0) as Hw0.
  { destruct Hw as [Hnd Hle]. unfold sent_once, w0.
    rewrite arrive_delivered, arrive_crm. split; [done|].
    intros n Hn. specialize (Hle n Hn). specialize (Hnl (email_num s) (crm w)).
    lia. }
  clearbody w0. clear Hw.
  destruct (Py.elem _ stop_statuses); [done|].
  rewrite (Hreads (email_num s)), get_last_email_sent_up.
  destruct (email_num s <=? recorded_last (crm w0) deal_id) eqn:Hle;
    [by apply IH|].
  apply Z.leb_gt in Hle.
  assert (sent_once deal_id (fst (send (email_num s) w0))) as Hw1.
  { destruct Hw0 as [Hnd Hbound].
    destruct (snd (send (email_num s) w0)) as [[|]|] eqn:Hr.
    - destruct (send_true _ _ Hr) as (Hn & _ & subject & ->).
      unfold sent_once.
      rewrite record_delivery_delivered, record_delivery_last by done.
      rewrite decide_True by apply Hwrites. split.
      + apply NoDup_app. split; [done|]. split; [|apply NoDup_singleton].
        intros n Hin Hn8. apply list_elem_of_singleton in Hn8 as ->.
        specialize (Hbound _ Hin). lia.
      + intros n Hin. apply elem_of_app in Hin as [Hin|Hin].
        * specialize (Hbound _ Hin). lia.
        * apply list_elem_of_singleton in Hin as ->. lia.
    - destruct (send_not_true (email_num s) w0) as (Hc & Hd & _);
        [by rewrite Hr|]. unfold sent_once. by rewrite Hc, Hd.
    - destruct (send_not_true (email_num s) w0) as (Hc & Hd & _);
        [by rewrite Hr|]. unfold sent_once. by rewrite Hc, Hd. }
  destruct (send (email_num s) w0) as [w1 [b|]]; cbn [fst] in *;
    [by apply IH | done].
Qed.



End Runs.

(** *** Writes of Voltooid *)

Section Completion.

Context (env : Env) (deal_id : Z) (to_email first_name company : string)
        (sent_date : Z).

Local Abbreviation run :=
  (run_schedule env deal_id to_email first_name company sent_date).
Local Abbreviation send num w :=
  (send_sequence_email env deal_id num to_email first_name company w).





End Completion.

(** ** Whole runs of the service *)







(** In a scene: the SMTP server refuses e-mail 2. *)
Lemma failed_send_is_passed_over_witness :
  let w := fresh (Scene.office Scene.deal_active) in
  let s := {| email_num := 2; day := 3; template_id := 64 |} in
  let w0 := arrive Scene.second_refused 0 s w in
  let w1 := fst (send_sequence_email Scene.second_refused 7 2
                   "an@voorbeeld.nl" "An" "Voorbeeld BV" w0) in
  run_schedule Scene.second_refused 7 "an@voorbeeld.nl" "An" "Voorbeeld BV" 0
    (s :: drop 2 EMAIL_SCHEDULE) w
  = run_schedule Scene.second_refused 7 "an@voorbeeld.nl" "An" "Voorbeeld BV"
      0 (drop 2 EMAIL_SCHEDULE) w1
  /\ crm w1 = crm w0
  /\ writes 7 (events w1) = writes 7 (events w0).
Proof.
  intros w s w0 w1.
  apply (failed_send_is_passed_over Scene.second_refused 7 "an@voorbeeld.nl"
           "An" "Voorbeeld BV" 0 s (drop 2 EMAIL_SCHEDULE) w).
  - vm_compute. reflexivity.
  - vm_compute. reflexivity.
  - vm_compute. reflexivity.
Defined.

(** In a scene: the SMTP server never answers during e-mail 1. *)
Lemma silent_smtp_server_blocks_the_run_witness :
  snd (process_email_sequence Scene.first_unanswered 7 "an@voorbeeld.nl" "An"
         "Voorbeeld BV" "2024-03-01" (fresh (Scene.office Scene.deal_active)))
  = Stuck 1.
Proof.
  change (snd (run_schedule Scene.first_unanswered 7 "an@voorbeeld.nl" "An"
                 "Voorbeeld BV" (19783 * 86400000000)
                 ({| email_num := 1; day := 1; template_id := 63 |}
                  :: drop 1 EMAIL_SCHEDULE)
                 (fresh (Scene.office Scene.deal_active))) = Stuck 1).
  rewrite silent_smtp_server_blocks_the_run.
  - reflexivity.
  - vm_compute. reflexivity.
  - vm_compute. reflexivity.
  - reflexivity.
  - vm_compute. eauto.
  - reflexivity.
Defined.

(** In a scene: the API is down for both reads of the first check. *)
Lemma unread_deal_is_sent_to_witness :
  let w := fresh (Scene.office Scene.deal_at_five) in
  let s := {| email_num := 1; day := 1; template_id := 63 |} in
  let w0 := arrive Scene.first_check_unread 0 s w in
  get_sequence_status (status_api Scene.first_check_unread 1) 7 w0 = JStr ""
  /\ get_last_email_sent (last_api Scene.first_check_unread 1) 7 w0 = 0
  /\ run_schedule Scene.first_check_unread 7 "an@voorbeeld.nl" "An"
       "Voorbeeld BV" 0 (s :: drop 1 EMAIL_SCHEDULE) w
     = match send_sequence_email Scene.first_check_unread 7 1
               "an@voorbeeld.nl" "An" "Voorbeeld BV" w0 with
       | (w1, Returns _) =>
           run_schedule Scene.first_check_unread 7 "an@voorbeeld.nl" "An"
             "Voorbeeld BV" 0 (drop 1 EMAIL_SCHEDULE) w1
       | (w1, NeverReturns) => (w1, Stuck 1)
       end.
Proof.
  intros w s w0.
  apply (unread_deal_is_sent_to Scene.first_check_unread 7 "an@voorbeeld.nl"
           "An" "Voorbeeld BV" 0 s (drop 1 EMAIL_SCHEDULE) w).
  - constructor.
  - reflexivity.
  - reflexivity.
Defined.

(** C4, as the code has it: a date that does not parse raises nothing.
    The run takes the current time as the day the APK was sent and goes
    through the schedule like any other run. *)
Theorem unparsed_date_starts_now env deal_id to_email first_name company
    apk_sent_date w :
  Dates.strptime_ymd apk_sent_date = None ->
  process_email_sequence env deal_id to_email first_name company
    apk_sent_date w
  = run_schedule env deal_id to_email first_name company (now env 0)
      EMAIL_SCHEDULE w.
Proof. intros Hdate. unfold process_email_sequence. by rewrite Hdate. Qed.

Lemma unparsed_date_starts_now_witness :
  process_email_sequence Scene.calm 7 "an@voorbeeld.nl" "An" "Voorbeeld BV"
    "gisteren" (fresh (Scene.office Scene.deal_active))
  = run_schedule Scene.calm 7 "an@voorbeeld.nl" "An" "Voorbeeld BV" 0
      EMAIL_SCHEDULE (fresh (Scene.office Scene.deal_active)).
Proof.
  apply (unparsed_date_starts_now Scene.calm 7 "an@voorbeeld.nl" "An"
           "Voorbeeld BV" "gisteren").
  reflexivity.
Defined.

(** Against C4 as stated: with a date that is no date at all the run waits
    for, checks and sends all eight e-mails and writes to the deal. *)
Lemma unparsed_date_still_sends :
  let r := process_email_sequence Scene.calm 7 "an@voorbeeld.nl" "An"
             "Voorbeeld BV" "gisteren"
             (fresh (Scene.office Scene.deal_active)) in
  Dates.strptime_ymd "gisteren" = None
  /\ snd r = Finished
  /\ delivered 7 (events (fst r)) = [1; 2; 3; 4; 5; 6; 7; 8]
  /\ length (writes 7 (events (fst r))) = 9%nat
  /\ recorded_status (crm (fst r)) 7 = JStr "Voltooid".
Proof. vm_compute. repeat split; reflexivity. Qed.

(** Runs in turn keep [sent_once] when each of them meets a consistent
    store. *)
Lemma run_in_turn_sent_once deal_id runs w :
  Forall (store_consistent deal_id) runs ->
  sent_once deal_id w -> sent_once deal_id (run_in_turn deal_id runs w).
Proof.
  intros Hruns. revert w.
  induction Hruns as [|r runs (Hreads & Hwrites & Hnl) _ IH]; intros w Hw;
    cbn [run_in_turn]; [done|].
  apply IH. unfold process_email_sequence. by apply run_sent_once.
Qed.

(** C6. When every read of the last e-mail is answered from the store,
    every write of it is applied and nobody else lowers it, no e-mail is
    delivered twice for a deal, over any number of runs in turn. *)
Theorem no_step_is_delivered_twice deal_id runs c :
  Forall (store_consistent deal_id) runs ->
  NoDup (delivered deal_id (events (run_in_turn deal_id runs (fresh c)))).
Proof.
  intros Hruns.
  apply (run_in_turn_sent_once deal_id runs (fresh c) Hruns).
  split; [apply NoDup_nil_2 | intros n Hn; by apply elem_of_nil in Hn].
Qed.

Lemma no_step_is_delivered_twice_witness :
  NoDup (delivered 7
           (events (run_in_turn 7
                      [Scene.invocation Scene.second_refused "2024-03-01";
                       Scene.invocation Scene.calm "2024-03-01"]
                      (fresh (Scene.office Scene.deal_active))))).
Proof.
  apply no_step_is_delivered_twice.
  repeat constructor; intros n; reflexivity.
Defined.

(** Runs in turn do not lower the last e-mail. *)
Lemma run_in_turn_keeps_last_up deal_id runs w :
  Forall (fun r => reads_last (inv_env r) /\ never_lowers (inv_env r) deal_id)
    runs ->
  recorded_last (crm w) deal_id
  <= recorded_last (crm (run_in_turn deal_id runs w)) deal_id.
Proof.
  intros Hruns. revert w.
  induction Hruns as [|r runs [Hreads Hnl] _ IH]; intros w;
    cbn [run_in_turn]; [done|].
  etrans; [|apply IH]. unfold process_email_sequence.
  by apply run_keeps_last_up.
Qed.

(** C7, as the code has it: an iteration whose read of the last e-mail
    is answered from the store never leaves a lower number than it found
    at its check, so each write is of a step above the number recorded
    before it; and when every such read is answered and nobody else lowers
    the number, it never goes down, neither along the loop nor from one
    run to a later one. *)
Theorem last_email_never_goes_down deal_id :
  (forall env to_email first_name company sent_date s w,
      last_api env (email_num s) = Up ->
      recorded_last (crm (arrive env sent_date s w)) deal_id
      <= recorded_last
           (crm (fst (run_schedule env deal_id to_email first_name company
                        sent_date [s] w))) deal_id)
  /\ (forall env to_email first_name company sent_date schedule w,
         reads_last env -> never_lowers env deal_id ->
         recorded_last (crm w) deal_id
         <= recorded_last
              (crm (fst (run_schedule env deal_id to_email first_name company
                           sent_date schedule w))) deal_id)
  /\ (forall runs w,
         Forall (fun r => reads_last (inv_env r)
                          /\ never_lowers (inv_env r) deal_id) runs ->
         recorded_last (crm w) deal_id
         <= recorded_last (crm (run_in_turn deal_id runs w)) deal_id).
Proof.
  split; [|split].
  - intros. by apply iteration_keeps_last_up.
  - intros. by apply run_keeps_last_up.
  - intros. by apply run_in_turn_keeps_last_up.
Qed.

Lemma last_email_never_goes_down_witness :
  let w := fresh (Scene.office Scene.deal_at_five) in
  let s6 := {| email_num := 6; day := 14; template_id := 68 |} in
  recorded_last (crm (arrive Scene.calm 0 s6 w)) 7
  <= recorded_last
       (crm (fst (run_schedule Scene.calm 7 "an@voorbeeld.nl" "An"
                    "Voorbeeld BV" 0 [s6] w))) 7
  /\ 5 <= recorded_last
            (crm (fst (run_schedule Scene.second_refused 7 "an@voorbeeld.nl"
                         "An" "Voorbeeld BV" 0 (take 6 EMAIL_SCHEDULE) w))) 7
  /\ 5 <= recorded_last
            (crm (run_in_turn 7
                    [Scene.invocation Scene.second_refused "2024-03-01";
                     Scene.invocation Scene.calm "2024-03-01"] w)) 7.
Proof.
  intros w s6.
  destruct (last_email_never_goes_down 7) as (Hstep & Hloop & Hruns).
  split; [|split].
  - apply (Hstep Scene.calm "an@voorbeeld.nl" "An" "Voorbeeld BV" 0 s6 w).
    reflexivity.
  - apply (Hloop Scene.second_refused "an@voorbeeld.nl" "An" "Voorbeeld BV" 0
             (take 6 EMAIL_SCHEDULE) w).
    + intros n. reflexivity.
    + intros n c. reflexivity.
  - apply (Hruns [Scene.invocation Scene.second_refused "2024-03-01";
                  Scene.invocation Scene.calm "2024-03-01"] w).
    repeat constructor; intros n; reflexivity.
Defined.

(** Against C7 as stated: when the read of the last e-mail is not answered
    the reader gives 0, so a deal that records e-mail 5 is sent e-mail 1
    again and then records e-mail 1. *)
Lemma unanswered_read_lowers_last_email :
  let c := Scene.office Scene.deal_at_five in
  let r := process_email_sequence Scene.last_unreadable 7 "an@voorbeeld.nl"
             "An" "Voorbeeld BV" "2024-03-01" (fresh c) in
  recorded_last c 7 = 5
  /\ writes 7 (events (fst r))
     = [("753f37a1abc8e161c7982c1379a306b21fae1bab", JStr "Email 1", true)]
  /\ recorded_last (crm (fst r)) 7 = 1.
Proof. vm_compute. repeat split; reflexivity. Qed.



(** ** Decimal text of integers *)

Section Decimal.

Import Decimal.




(** The characters of a decimal text: digits only. *)
Lemma uint_chars_digits d :
  Forall (fun c => is_Some (Py.digit_val c))
    (list_ascii_of_string (NilEmpty.string_of_uint d)).
Proof.
  induction d; cbn [NilEmpty.string_of_uint list_ascii_of_string];
    [constructor|..]; (constructor; [by eexists | done]).
Qed.

End Decimal.





(** ** The last e-mail field, written and read *)

(** Text in which the first character of [old] does not occur holds no
    [old], so [replace] leaves it as it is. *)
Lemma replace_go_absent c0 old new s :
  Forall (fun c => c <> c0) (list_ascii_of_string s) ->
  Py.replace_go (String c0 old) new O s = s.
Proof.
  induction s as [|c s IH]; intros Hs; [done|].
  cbn [list_ascii_of_string] in Hs. apply Forall_cons in Hs as [Hc Hs].
  cbn [Py.replace_go String.prefix].
  destruct (ascii_dec c0 c) as [->|_]; [done|].
  by rewrite IH.
Qed.

Lemma contains_absent c0 needle s :
  Forall (fun c => c <> c0) (list_ascii_of_string s) ->
  Py.contains (String c0 needle) s = false.
Proof.
  induction s as [|c s IH]; intros Hs; [done|].
  cbn [list_ascii_of_string] in Hs. apply Forall_cons in Hs as [Hc Hs].
  cbn [Py.contains String.prefix].
  destruct (ascii_dec c0 c) as [->|_]; [done|].
  by apply IH.
Qed.

(** The characters of [str(n)]: digits and the minus sign. *)
Lemma str_of_Z_chars n :
  Forall (fun c => is_Some (Py.digit_val c) \/ c = "-"%char)
    (list_ascii_of_string (Py.str_of_Z n)).
Proof.
  assert (forall d,
    Forall (fun c => is_Some (Py.digit_val c) \/ c = "-"%char)
      (list_ascii_of_string (NilZero.string_of_uint d))) as Hu.
  { intros d. eapply Forall_impl with (P := fun c => is_Some (Py.digit_val c));
      [|by left].
    destruct d; try apply (uint_chars_digits (_ d)).
    repeat constructor. by eexists. }
  unfold Py.str_of_Z. destruct (Z.to_int n); cbn [NilZero.string_of_int];
    [apply Hu|].
  cbn [list_ascii_of_string]. constructor; [by right | apply Hu].
Qed.

Lemma str_of_Z_without c0 n :
  Py.digit_val c0 = None -> c0 <> "-"%char ->
  Forall (fun c => c <> c0) (list_ascii_of_string (Py.str_of_Z n)).
Proof.
  intros Hd Hm. eapply Forall_impl; [apply str_of_Z_chars|].
  intros c Hc Heq. subst c. destruct Hc as [[k Hk]|Hc]; congruence.
Qed.




(** X2. A last e-mail field that holds no text (null, a boolean, a number)
    reads as 0, whatever the number. *)
Theorem non_text_last_email_reads_zero p deal_id w v :
  crm w deal_id !! field_key "laatste_email" = Some v ->
  (forall s, v <> JStr s) ->
  get_last_email_sent p deal_id w = 0.
Proof.
  intros Hv Hs.
  assert (last_email_number v = 0) as Hzero.
  { unfold last_email_number. destruct v as [|[|]|n|s]; try done.
    - cbn [Py.str]. rewrite contains_absent, andb_false_r; [done|].
      by apply str_of_Z_without.
    - by destruct (Hs s). }
  destruct (decide (p = Up)) as [->|Hp].
  - rewrite get_last_email_sent_up. unfold recorded_last, field.
    by rewrite Hv.
  - by apply get_last_email_sent_failed.
Qed.

Lemma non_text_last_email_reads_zero_witness :
  get_last_email_sent Up 7 (fresh (Scene.office Scene2.deal_number_five)) = 0.
Proof.
  apply (non_text_last_email_reads_zero Up 7 _ (JInt 5)).
  - reflexivity.
  - intros s. discriminate.
Defined.

(** ** What a run touches, and how it can end *)

Section Frame.

Context (env : Env) (deal_id : Z) (to_email first_name company : string)
        (sent_date : Z).

Local Abbreviation run :=
  (run_schedule env deal_id to_email first_name company sent_date).
Local Abbreviation send num w :=
  (send_sequence_email env deal_id num to_email first_name company w).

Lemma update_deal_field_frame p key value w d k :
  d <> deal_id \/ k <> key ->
  crm (fst (update_deal_field p deal_id key value w)) d !! k = crm w d !! k.
Proof.
  intros Hdk. destruct (decide (p = Up)) as [->|Hp].
  - rewrite update_deal_field_up.
    destruct (d =? deal_id) eqn:Hd; [|done].
    apply Z.eqb_eq in Hd as ->. destruct Hdk as [Hd|Hk]; [done|].
    by apply lookup_insert_ne.
  - by destruct (update_deal_field_failed p deal_id key value w Hp) as [-> _].
Qed.

Lemma record_delivery_frame num subject w d k :
  d <> deal_id
  \/ (k <> field_key "laatste_email"
      /\ k <> field_key "email_sequence_status") ->
  crm (record_delivery env deal_id num to_email subject w) d !! k
  = crm w d !! k.
Proof.
  intros Hdk. unfold record_delivery.
  destruct (num =? 8); rewrite !update_deal_field_frame; try done; tauto.
Qed.

Lemma send_frame num w d k :
  d <> deal_id
  \/ (k <> field_key "laatste_email"
      /\ k <> field_key "email_sequence_status") ->
  crm (fst (send num w)) d !! k = crm w d !! k.
Proof.
  intros Hdk.
  destruct (send_sequence_email_cases env deal_id num to_email first_name
              company w)
    as [[Hs _]|[(subject & Hs & _)|[[Hs _]|(subject & Hs & _)]]];
    rewrite Hs; cbn [fst emit crm]; try done.
  by apply record_delivery_frame.
Qed.

(** X3. A run changes nothing in the CRM but the last e-mail and the
    status of its own deal: any other field, and any field of another
    deal, is at the end as at the start unless somebody else changed it. *)
Theorem run_writes_only_its_two_fields schedule w d k :
  d <> deal_id
  \/ (k <> field_key "laatste_email"
      /\ k <> field_key "email_sequence_status") ->
  (forall n c, external env n c d !! k = c d !! k) ->
  crm (fst (run_schedule env deal_id to_email first_name company sent_date
              schedule w)) d !! k
  = crm w d !! k.
Proof.
  intros Hdk Hext. revert w.
  induction schedule as [|s rest IH]; intros w; cbn [run_schedule]; [done|].
  set (w0 := arrive env sent_date s w).
  assert (crm w0 d !! k = crm w d !! k) as H0
    by (unfold w0; rewrite arrive_crm; apply Hext).
  clearbody w0.
  destruct (Py.elem _ stop_statuses); [done|].
  destruct (email_num s <=? _); [by rewrite IH|].
  pose proof (send_frame (email_num s) w0 d k Hdk) as Hs.
  destruct (send (email_num s) w0) as [w1 [b|]]; cbn [fst] in *.
  - rewrite IH. congruence.
  - congruence.
Qed.

(** The values that stop a run. *)
Lemma elem_stop_statuses v :
  Py.elem v stop_statuses = true ->
  v = JStr "Gepauzeerd" \/ v = JStr "Voltooid".
Proof.
  unfold Py.elem, stop_statuses. cbn [existsb]. rewrite orb_false_r.
  intros Hv. apply orb_true_iff in Hv as [Hv|Hv];
    destruct v as [|b|n|s]; cbn in Hv; try done;
    apply String.eqb_eq in Hv as ->; auto.
Qed.

(** X4. A run is stopped only by a status read that the API answered with
    exactly Gepauzeerd or Voltooid, at the check of a step of its
    schedule; an unanswered read never stops it. *)
Theorem stopped_only_by_answered_stop_status schedule w n status :
  snd (run_schedule env deal_id to_email first_name company sent_date
         schedule w) = Stopped n status ->
  (status = JStr "Gepauzeerd" \/ status = JStr "Voltooid")
  /\ status_api env n = Up
  /\ n ∈ map email_num schedule.
Proof.
  revert w. induction schedule as [|s rest IH]; intros w;
    cbn [run_schedule]; [done|].
  set (w0 := arrive env sent_date s w). clearbody w0.
  assert (forall w', snd (run rest w') = Stopped n status ->
            (status = JStr "Gepauzeerd" \/ status = JStr "Voltooid")
            /\ status_api env n = Up /\ n ∈ map email_num (s :: rest))
    as IH'.
  { intros w' Hw'. destruct (IH w' Hw') as (? & ? & ?).
    repeat split; try done. cbn [map]. by apply list_elem_of_further. }
  destruct (Py.elem _ stop_statuses) eqn:Hstop.
  - cbn [snd]. intros [= <- <-].
    split; [by apply elem_stop_statuses|]. split.
    + destruct (decide (status_api env (email_num s) = Up)) as [|Hp]; [done|].
      by rewrite get_sequence_status_failed in Hstop.
    + cbn [map]. apply list_elem_of_here.
  - destruct (email_num s <=? _); [apply IH'|].
    destruct (send (email_num s) w0) as [w1 [b|]]; [apply IH' | done].
Qed.

(** X5. A run gets stuck only inside the send of a step of its schedule
    that has a template, with the password set and an SMTP server that
    never answers; so a run whose SMTP server always answers returns. *)
Theorem stuck_only_in_unanswered_send schedule w n :
  snd (run_schedule env deal_id to_email first_name company sent_date
         schedule w) = Stuck n ->
  configured (SMTP_PASS env) = true
  /\ smtp env n = Silent
  /\ is_Some (EMAIL_TEMPLATES !! n)
  /\ n ∈ map email_num schedule.
Proof.
  revert w. induction schedule as [|s rest IH]; intros w;
    cbn [run_schedule]; [done|].
  set (w0 := arrive env sent_date s w). clearbody w0.
  assert (forall w', snd (run rest w') = Stuck n ->
            configured (SMTP_PASS env) = true /\ smtp env n = Silent
            /\ is_Some (EMAIL_TEMPLATES !! n)
            /\ n ∈ map email_num (s :: rest)) as IH'.
  { intros w' Hw'. destruct (IH w' Hw') as (? & ? & ? & ?).
    repeat split; try done. cbn [map]. by apply list_elem_of_further. }
  destruct (Py.elem _ stop_statuses); [done|].
  destruct (email_num s <=? _); [apply IH'|].
  destruct (send_sequence_email_cases env deal_id (email_num s) to_email
              first_name company w0)
    as [[Hs _]|[(subject & Hs & _)|[(Hs & Hp & Ht & Hsil)
                                   |(subject & Hs & _)]]];
    rewrite Hs; try apply IH'.
  cbn [snd]. intros [= <-]. repeat split; try done.
  cbn [map]. apply list_elem_of_here.
Qed.

End Frame.

Lemma run_writes_only_its_two_fields_witness :
  let w := fresh (Scene.office Scene.deal_active) in
  crm (fst (run_schedule Scene.calm 7 "an@voorbeeld.nl" "An" "Voorbeeld BV" 0
              EMAIL_SCHEDULE w)) 9 !! field_key "laatste_email"
  = crm w 9 !! field_key "laatste_email"
  /\ crm (fst (run_schedule Scene.calm 7 "an@voorbeeld.nl" "An"
                 "Voorbeeld BV" 0 EMAIL_SCHEDULE w)) 7 !! "id"
     = crm w 7 !! "id".
Proof.
  intros w. split.
  - apply (run_writes_only_its_two_fields Scene.calm 7).
    + left. discriminate.
    + intros n c. reflexivity.
  - apply (run_writes_only_its_two_fields Scene.calm 7).
    + right. split; discriminate.
    + intros n c. reflexivity.
Defined.

Lemma stopped_only_by_answered_stop_status_witness :
  (JStr "Gepauzeerd" = JStr "Gepauzeerd" \/ JStr "Gepauzeerd" = JStr "Voltooid")
  /\ status_api Scene.paused_before_three 3 = Up
  /\ 3 ∈ map email_num EMAIL_SCHEDULE.
Proof.
  apply (stopped_only_by_answered_stop_status Scene.paused_before_three 7
           "an@voorbeeld.nl" "An" "Voorbeeld BV" 0 EMAIL_SCHEDULE
           (fresh (Scene.office Scene.deal_active))).
  vm_compute. reflexivity.
Defined.

Lemma stuck_only_in_unanswered_send_witness :
  configured (SMTP_PASS Scene.first_unanswered) = true
  /\ smtp Scene.first_unanswered 1 = Silent
  /\ is_Some (EMAIL_TEMPLATES !! 1)
  /\ 1 ∈ map email_num EMAIL_SCHEDULE.
Proof.
  apply (stuck_only_in_unanswered_send Scene.first_unanswered 7
           "an@voorbeeld.nl" "An" "Voorbeeld BV" 0 EMAIL_SCHEDULE
           (fresh (Scene.office Scene.deal_active))).
  vm_compute. reflexivity.
Defined.

(** ** The trace of a run *)

Lemma sleeps_app l1 l2 : sleeps (l1 ++ l2) = sleeps l1 ++ sleeps l2.
Proof. apply omap_app. Qed.

Section Trace.

Context (env : Env) (deal_id : Z) (to_email first_name company : string)
        (sent_date : Z).

Local Abbreviation run :=
  (run_schedule env deal_id to_email first_name company sent_date).
Local Abbreviation send num w :=
  (send_sequence_email env deal_id num to_email first_name company w).

(** A send adds no sleep to the trace. *)
Lemma send_sleeps num w : sleeps (events (fst (send num w))) = sleeps (events w).
Proof.
  destruct (send_sequence_email_cases env deal_id num to_email first_name
              company w)
    as [[Hs _]|[(subject & Hs & _)|[[Hs _]|(subject & Hs & _)]]];
    rewrite Hs; cbn [fst emit events]; try done.
  - rewrite sleeps_app. cbn. apply app_nil_r.
  - destruct (record_delivery_events env deal_id num to_email subject w)
      as (ok1 & ok2 & ->).
    rewrite !sleeps_app. destruct (num =? 8); cbn; by rewrite !app_nil_r.
Qed.

(** The sleep of an iteration: the wait, when there is one. *)
Lemma arrive_sleeps s w :
  sleeps (events (arrive env sent_date s w))
  = sleeps (events w)
    ++ (if 0 <? wait_of env sent_date s then [wait_of env sent_date s]
        else []).
Proof.
  unfold arrive, wait_of. destruct (0 <? _); cbn [events emit].
  - by rewrite sleeps_app.
  - by rewrite app_nil_r.
Qed.

Lemma run_sleeps schedule w :
  exists done_with,
    done_with `prefix_of` schedule
    /\ (snd (run schedule w) = Finished -> done_with = schedule)
    /\ sleeps (events (fst (run schedule w)))
       = sleeps (events w)
         ++ filter (fun t => 0 < t) (map (wait_of env sent_date) done_with).
Proof.
  revert w. induction schedule as [|s rest IH]; intros w; cbn [run_schedule].
  { exists []. cbn. by rewrite app_nil_r. }
  set (w0 := arrive env sent_date s w).
  assert (sleeps (events w0)
          = sleeps (events w)
            ++ filter (fun t => 0 < t) [wait_of env sent_date s]) as H0.
  { unfold w0. rewrite arrive_sleeps. f_equal.
    destruct (0 <? wait_of env sent_date s) eqn:Hw.
    - apply Z.ltb_lt in Hw. by rewrite filter_cons_True.
    - apply Z.ltb_ge in Hw. rewrite filter_cons_False; [done | lia]. }
  clearbody w0.
  assert (forall w1, sleeps (events w1) = sleeps (events w0) ->
            exists done_with,
              done_with `prefix_of` s :: rest
              /\ (snd (run rest w1) = Finished -> done_with = s :: rest)
              /\ sleeps (events (fst (run rest w1)))
                 = sleeps (events w)
                   ++ filter (fun t => 0 < t)
                        (map (wait_of env sent_date) done_with)) as Hgo.
  { intros w1 Hw1. destruct (IH w1) as (dw & Hpre & Hfin & Hsl).
    exists (s :: dw). split; [by apply prefix_cons|].
    split; [intros Hf; f_equal; by apply Hfin|].
    rewrite Hsl, Hw1, H0. cbn [map]. rewrite <- app_assoc. f_equal.
    by rewrite <- filter_app. }
  destruct (Py.elem _ stop_statuses).
  - exists [s]. split; [apply prefix_cons, prefix_nil|].
    split; [done|]. by cbn [fst map].
  - destruct (email_num s <=? _); [by apply Hgo|].
    pose proof (send_sleeps (email_num s) w0) as Hs.
    destruct (send (email_num s) w0) as [w1 [b|]]; cbn [fst] in *.
    + by apply Hgo.
    + exists [s]. split; [apply prefix_cons, prefix_nil|].
      split; [done|]. cbn [fst map]. by rewrite Hs.
Qed.

(** X6. The thread sleeps only ahead of a send date that is still to
    come, and then exactly until that date: the sleeps of a run are the
    positive waits of the steps it reached, in order, and of all the
    steps when it ran off the schedule. *)
Theorem sleeps_are_the_waits_ahead schedule c :
  let r := run_schedule env deal_id to_email first_name company sent_date
             schedule (fresh c) in
  sleeps (events (fst r))
    `prefix_of` filter (fun t => 0 < t) (map (wait_of env sent_date) schedule)
  /\ (snd r = Finished ->
      sleeps (events (fst r))
      = filter (fun t => 0 < t) (map (wait_of env sent_date) schedule))
  /\ Forall (fun t => 0 < t) (sleeps (events (fst r))).
Proof.
  intros r. destruct (run_sleeps schedule (fresh c))
    as (dw & [tail ->] & Hfin & Hsl).
  fold r in Hfin, Hsl. cbn [fresh events sleeps omap] in Hsl.
  change (omap _ []) with (@nil Z) in Hsl. cbn [app] in Hsl.
  rewrite Hsl. split; [|split].
  - rewrite map_app, filter_app. by apply prefix_app_r.
  - intros Hf. by rewrite <- (Hfin Hf).
  - apply Forall_forall. intros t Ht.
    by apply list_elem_of_filter in Ht as [Ht _].
Qed.

End Trace.

Lemma sleeps_are_the_waits_ahead_witness :
  sleeps (events (fst (run_schedule Scene.calm 7 "an@voorbeeld.nl" "An"
                         "Voorbeeld BV" 0 EMAIL_SCHEDULE
                         (fresh (Scene.office Scene.deal_active)))))
  = map (fun s => day s * 86400000000) EMAIL_SCHEDULE.
Proof.
  etrans.
  - apply (proj1 (proj2 (sleeps_are_the_waits_ahead Scene.calm 7
                           "an@voorbeeld.nl" "An" "Voorbeeld BV" 0
                           EMAIL_SCHEDULE (Scene.office Scene.deal_active)))).
    vm_compute. reflexivity.
  - vm_compute. reflexivity.
Defined.

(** ** Sessions, deliveries and writes of one run *)

Section Sessions.

Context (env : Env) (deal_id : Z) (to_email first_name company : string)
        (sent_date : Z).

Local Abbreviation run :=
  (run_schedule env deal_id to_email first_name company sent_date).
Local Abbreviation send num w :=
  (send_sequence_email env deal_id num to_email first_name company w).

Lemma record_delivery_writes num subject w :
  map fst (writes deal_id
             (events (record_delivery env deal_id num to_email subject w)))
  = map fst (writes deal_id (events w)) ++ delivery_writes num.
Proof.
  destruct (record_delivery_events env deal_id num to_email subject w)
    as (ok1 & ok2 & ->).
  rewrite !writes_app, !map_app. f_equal. unfold delivery_writes.
  destruct (num =? 8); cbn; rewrite ?Z.eqb_refl; reflexivity.
Qed.

(** What one send adds to the trace: no session; a session that fails; or
    a session that delivers, with the writes of that delivery. *)
Lemma send_adds num w :
  exists sessions deliveries,
    attempted deal_id (events (fst (send num w)))
    = attempted deal_id (events w) ++ sessions
    /\ delivered deal_id (events (fst (send num w)))
       = delivered deal_id (events w) ++ deliveries
    /\ map fst (writes deal_id (events (fst (send num w))))
       = map fst (writes deal_id (events w))
         ++ concat (map delivery_writes deliveries)
    /\ deliveries `sublist_of` sessions
    /\ sessions `sublist_of` [num].
Proof.
  destruct (send_sequence_email_cases env deal_id num to_email first_name
              company w)
    as [[Hs _]|[(subject & Hs & _)|[[Hs _]|(subject & Hs & _)]]];
    rewrite Hs; cbn [fst emit events].
  - exists [], []. rewrite !app_nil_r. repeat split; try done.
    apply sublist_nil_l.
  - exists [num], []. rewrite attempted_app, delivered_app, writes_app.
    cbn. rewrite Z.eqb_refl, !app_nil_r. repeat split; try done.
    apply sublist_nil_l.
  - exists [], []. rewrite !app_nil_r. repeat split; try done.
    apply sublist_nil_l.
  - exists [num], [num].
    rewrite record_delivery_attempted, record_delivery_delivered,
      record_delivery_writes.
    cbn [map concat]. by rewrite app_nil_r.
Qed.

Lemma run_adds schedule w :
  exists sessions deliveries,
    attempted deal_id (events (fst (run schedule w)))
    = attempted deal_id (events w) ++ sessions
    /\ delivered deal_id (events (fst (run schedule w)))
       = delivered deal_id (events w) ++ deliveries
    /\ map fst (writes deal_id (events (fst (run schedule w))))
       = map fst (writes deal_id (events w))
         ++ concat (map delivery_writes deliveries)
    /\ deliveries `sublist_of` sessions
    /\ sessions `sublist_of` map email_num schedule.
Proof.
  revert w. induction schedule as [|s rest IH]; intros w; cbn [run_schedule].
  { exists [], []. by rewrite !app_nil_r. }
  set (w0 := arrive env sent_date s w).
  assert (attempted deal_id (events w0) = attempted deal_id (events w))
    as Ha0 by apply arrive_attempted.
  assert (delivered deal_id (events w0) = delivered deal_id (events w))
    as Hd0 by apply arrive_delivered.
  assert (writes deal_id (events w0) = writes deal_id (events w))
    as Hw0 by apply arrive_writes.
  clearbody w0.
  assert (exists sessions deliveries,
            attempted deal_id (events w0)
            = attempted deal_id (events w) ++ sessions
            /\ delivered deal_id (events w0)
               = delivered deal_id (events w) ++ deliveries
            /\ map fst (writes deal_id (events w0))
               = map fst (writes deal_id (events w))
                 ++ concat (map delivery_writes deliveries)
            /\ deliveries `sublist_of` sessions
            /\ sessions `sublist_of` map email_num (s :: rest)) as Hnone.
  { exists [], []. rewrite Ha0, Hd0, Hw0, !app_nil_r.
    repeat split; try done; apply sublist_nil_l. }
  destruct (Py.elem _ stop_statuses); [exact Hnone|].
  destruct (email_num s <=? _).
  - destruct (IH w0) as (la & ld & Ha & Hd & Hw & Hsub1 & Hsub2).
    exists la, ld. rewrite Ha, Hd, Hw, Ha0, Hd0, Hw0.
    repeat split; try done. cbn [map]. by apply sublist_cons.
  - destruct (send_adds (email_num s) w0)
      as (la1 & ld1 & Ha1 & Hd1 & Hw1 & Hsub1 & Hsub1').
    destruct (send (email_num s) w0) as [w1 [b|]]; cbn [fst] in *.
    + destruct (IH w1) as (la & ld & Ha & Hd & Hw & Hsub & Hsub').
      exists (la1 ++ la), (ld1 ++ ld).
      rewrite Ha, Hd, Hw, Ha1, Hd1, Hw1, Ha0, Hd0, Hw0.
      rewrite map_app, concat_app, <- !app_assoc.
      repeat split; try done.
      * by apply sublist_app.
      * change (map email_num (s :: rest))
          with ([email_num s] ++ map email_num rest).
        by apply sublist_app.
    + exists la1, ld1. rewrite Ha1, Hd1, Hw1, Ha0, Hd0, Hw0.
      repeat split; try done.
      etrans; [exact Hsub1'|]. cbn [map].
      apply sublist_skip, sublist_nil_l.
Qed.

(** X7. Whatever the store and the servers do, one run opens at most one
    SMTP session per step of its schedule, in the order of the schedule,
    and delivers only in sessions it opened. *)
Theorem one_session_per_step_in_order schedule c :
  let r := run_schedule env deal_id to_email first_name company sent_date
             schedule (fresh c) in
  attempted deal_id (events (fst r)) `sublist_of` map email_num schedule
  /\ delivered deal_id (events (fst r))
       `sublist_of` attempted deal_id (events (fst r)).
Proof.
  intros r. destruct (run_adds schedule (fresh c))
    as (la & ld & Ha & Hd & _ & Hsub & Hsub').
  fold r in Ha, Hd. cbn in Ha, Hd. by rewrite Ha, Hd.
Qed.

(** X8. The writes of a run follow from its deliveries: each delivered
    e-mail is followed by one write of its number as the last e-mail,
    e-mail 8 also by a write of Voltooid, and nothing else is ever
    written. *)
Theorem writes_follow_deliveries schedule c :
  let r := run_schedule env deal_id to_email first_name company sent_date
             schedule (fresh c) in
  map fst (writes deal_id (events (fst r)))
  = concat (map delivery_writes (delivered deal_id (events (fst r)))).
Proof.
  intros r. destruct (run_adds schedule (fresh c))
    as (la & ld & _ & Hd & Hw & _).
  fold r in Hw, Hd. cbn in Hw, Hd. by rewrite Hw, Hd.
Qed.


End Sessions.

Lemma one_session_per_step_in_order_witness :
  let r := run_schedule Scene.second_refused 7 "an@voorbeeld.nl" "An"
             "Voorbeeld BV" 0 EMAIL_SCHEDULE
             (fresh (Scene.office Scene.deal_at_five)) in
  attempted 7 (events (fst r)) `sublist_of` [1; 2; 3; 4; 5; 6; 7; 8]
  /\ delivered 7 (events (fst r)) `sublist_of` attempted 7 (events (fst r)).
Proof.
  apply (one_session_per_step_in_order Scene.second_refused 7
           "an@voorbeeld.nl" "An" "Voorbeeld BV" 0 EMAIL_SCHEDULE).
Defined.


(** ** Writes that are not applied *)






(** ** The date from the webhook handler *)

Lemma digit_val_char k :
  0 <= k <= 9 -> Py.digit_val (Calendar.digit_char k) = Some k.
Proof.
  intros Hk.
  assert (k = 0 \/ k = 1 \/ k = 2 \/ k = 3 \/ k = 4 \/ k = 5 \/ k = 6
          \/ k = 7 \/ k = 8 \/ k = 9) as Hc by lia.
  destruct Hc as [->|[->|[->|[->|[->|[->|[->|[->|[->| ->]]]]]]]]];
    reflexivity.
Qed.

Lemma directive_m_padded m rest :
  1 <= m <= 12 ->
  Dates.directive_m
    (Calendar.digit_char (m / 10) :: Calendar.digit_char (m mod 10) :: rest)
  = Some (m, rest).
Proof.
  intros Hm.
  assert (m = 1 \/ m = 2 \/ m = 3 \/ m = 4 \/ m = 5 \/ m = 6 \/ m = 7
          \/ m = 8 \/ m = 9 \/ m = 10 \/ m = 11 \/ m = 12) as Hc by lia.
  destruct Hc as [->|[->|[->|[->|[->|[->|[->|[->|[->|[->|[->| ->]]]]]]]]]]];
    reflexivity.
Qed.

Lemma directive_d_padded d rest :
  1 <= d <= 31 ->
  Dates.directive_d
    (Calendar.digit_char (d / 10) :: Calendar.digit_char (d mod 10) :: rest)
  = Some (d, rest).
Proof.
  intros Hd.
  assert (exists a b, d = 10 * a + b /\ 0 <= a <= 3 /\ 0 <= b <= 9)
    as (a & b & -> & Ha & Hb) by (exists (d / 10), (d mod 10); Z.div_mod_to_equations; lia).
  replace ((10 * a + b) / 10) with a by (Z.div_mod_to_equations; lia).
  replace ((10 * a + b) mod 10) with b by (Z.div_mod_to_equations; lia).
  assert (a = 0 \/ a = 1 \/ a = 2 \/ a = 3) as Hac by lia.
  assert (b = 0 \/ b = 1 \/ b = 2 \/ b = 3 \/ b = 4 \/ b = 5 \/ b = 6
          \/ b = 7 \/ b = 8 \/ b = 9) as Hbc by lia.
  destruct Hac as [->|[->|[->| ->]]];
    destruct Hbc as [->|[->|[->|[->|[->|[->|[->|[->|[->| ->]]]]]]]]];
    try reflexivity; lia.
Qed.

Lemma days_in_month_max y m : Dates.days_in_month y m <= 31.
Proof.
  unfold Dates.days_in_month.
  destruct (m =? 2); [by destruct (Dates.is_leap y)|].
  by destruct (_ || _).
Qed.

(** X11. The date the webhook handler hands to the service, today's date
    printed with [%Y-%m-%d], always parses back to midnight of that day:
    started from the handler the run never falls back on the current
    time. *)
Theorem handler_date_parses env deal_id to_email first_name company y m d w :
  1000 <= y <= 9999 -> 1 <= m <= 12 -> 1 <= d <= Dates.days_in_month y m ->
  Dates.strptime_ymd (Calendar.strftime_ymd y m d)
  = Some (Dates.days_from_civil y m d * Dates.microseconds_per_day)
  /\ process_email_sequence env deal_id to_email first_name company
       (Calendar.strftime_ymd y m d) w
     = run_schedule env deal_id to_email first_name company
         (Dates.days_from_civil y m d * Dates.microseconds_per_day)
         EMAIL_SCHEDULE w.
Proof.
  intros Hy Hm Hd.
  assert (Dates.strptime_ymd (Calendar.strftime_ymd y m d)
          = Some (Dates.days_from_civil y m d * Dates.microseconds_per_day))
    as Hparse.
  { unfold Dates.strptime_ymd, Calendar.strftime_ymd.
    rewrite list_ascii_of_string_of_list_ascii.
    unfold Dates.directive_Y.
    rewrite !digit_val_char by (Z.div_mod_to_equations; lia).
    replace (1000 * (y / 1000) + 100 * (y / 100 mod 10)
             + 10 * (y / 10 mod 10) + y mod 10) with y
      by (Z.div_mod_to_equations; lia).
    cbn [mbind option_bind Dates.expect Ascii.eqb Bool.eqb].
    rewrite directive_m_padded by done.
    cbn [mbind option_bind Dates.expect Ascii.eqb Bool.eqb].
    pose proof (days_in_month_max y m).
    rewrite directive_d_padded by lia.
    cbn [mbind option_bind].
    rewrite (proj2 (Z.leb_le 1 y)) by lia.
    by rewrite (proj2 (Z.leb_le d _)) by lia. }
  split; [done|]. unfold process_email_sequence. by rewrite Hparse.
Qed.

Lemma handler_date_parses_witness :
  Dates.strptime_ymd (Calendar.strftime_ymd 2024 2 29)
  = Some (Dates.days_from_civil 2024 2 29 * Dates.microseconds_per_day)
  /\ process_email_sequence Scene.calm 7 "an@voorbeeld.nl" "An"
       "Voorbeeld BV" (Calendar.strftime_ymd 2024 2 29)
       (fresh (Scene.office Scene.deal_active))
     = run_schedule Scene.calm 7 "an@voorbeeld.nl" "An" "Voorbeeld BV"
         (Dates.days_from_civil 2024 2 29 * Dates.microseconds_per_day)
         EMAIL_SCHEDULE (fresh (Scene.office Scene.deal_active)).
Proof.
  apply handler_date_parses; vm_compute; split; discriminate.
Defined.

(** ** The plain-text part *)

Lemma prefix_length old s :
  String.prefix old s = true -> (String.length old <= String.length s)%nat.
Proof.
  revert s. induction old as [|a old IH]; intros s; [cbn; lia|].
  destruct s as [|b s]; cbn [String.prefix String.length]; [done|].
  destruct (ascii_dec a b); [|done]. intros H. apply IH in H. lia.
Qed.

Lemma length_append s t :
  String.length (s +:+ t) = (String.length s + String.length t)%nat.
Proof.
  induction s as [|c s IH]; [done|].
  change (S (String.length (s +:+ t))
          = S (String.length s + String.length t)).
  by rewrite IH.
Qed.

(** Replacing by something no longer than what is replaced does not
    lengthen a text. *)
Lemma replace_go_length a old new skip s :
  (String.length new <= String.length (String a old))%nat ->
  (skip <= String.length s)%nat ->
  (String.length (Py.replace_go (String a old) new skip s) + skip
   <= String.length s)%nat.
Proof.
  intros Hnew. revert skip.
  induction s as [|c s IH]; intros skip Hskip.
  - cbn in *. lia.
  - cbn [Py.replace_go]. destruct skip as [|k].
    + destruct (String.prefix (String a old) (String c s)) eqn:Hp.
      * apply prefix_length in Hp. cbn [String.length] in *.
        rewrite length_append.
        specialize (IH (Nat.pred (S (String.length old)))).
        change (Nat.pred (S (String.length old))) with (String.length old)
          in *.
        lia.
      * cbn [String.length]. specialize (IH O). lia.
    + cbn [String.length] in *. specialize (IH k). lia.
Qed.

Lemma replace_length a old new s :
  (String.length new <= String.length (String a old))%nat ->
  (String.length (Py.replace (String a old) new s) <= String.length s)%nat.
Proof.
  intros Hnew. pose proof (replace_go_length a old new O s Hnew). 
  unfold Py.replace. lia.
Qed.

(** X12. The plain-text part of an e-mail is never longer than the HTML
    body it is derived from, and a body without any [<] is its own
    plain-text part. *)
Theorem text_content_no_longer body :
  (String.length (text_content body) <= String.length body)%nat
  /\ (Forall (fun c => c <> "<"%char) (list_ascii_of_string body) ->
      text_content body = body).
Proof.
  split.
  - unfold text_content. cbv zeta.
    repeat (etrans; [apply replace_length; vm_compute; lia|]). done.
  - intros Hplain. unfold text_content, Py.replace. cbv zeta.
    rewrite (replace_go_absent "<" "p>" "" body Hplain).
    rewrite (replace_go_absent "<" "/p>" (newline +:+ newline) body Hplain).
    rewrite (replace_go_absent "<" "br>" newline body Hplain).
    rewrite (replace_go_absent "<" "strong>" "" body Hplain).
    rewrite (replace_go_absent "<" "/strong>" "" body Hplain).
    rewrite (replace_go_absent "<" "em>" "" body Hplain).
    apply (replace_go_absent "<" "/em>" "" body Hplain).
Qed.

Lemma text_content_no_longer_witness :
  text_content "Hoi An, tot morgen." = "Hoi An, tot morgen.".
Proof.
  apply (proj2 (text_content_no_longer "Hoi An, tot morgen.")).
  repeat constructor; discriminate.
Defined.

(** ** Where a run takes the sequence up *)

Section Resume.

Context (env : Env) (deal_id : Z) (to_email first_name company : string)
        (sent_date : Z).

Local Abbreviation run :=
  (run_schedule env deal_id to_email first_name company sent_date).
Local Abbreviation send num w :=
  (send_sequence_email env deal_id num to_email first_name company w).



End Resume.




(** ** What a send returns *)

(** X14. For an e-mail number that has no template, that is any number
    outside 1..8, [send_sequence_email] returns [False] at once: no SMTP
    session, no write, the world as it was. *)
Theorem send_without_template env deal_id num to_email first_name company w :
  ~ 1 <= num <= 8 ->
  send_sequence_email env deal_id num to_email first_name company w
  = (w, Returns false).
Proof.
  intros Hnum. unfold send_sequence_email.
  destruct (configured (SMTP_PASS env)); cbn [negb]; [|done].
  destruct (EMAIL_TEMPLATES !! num) as [subject|] eqn:Ht; [|done].
  by apply template_range in Ht.
Qed.

Lemma send_without_template_witness :
  send_sequence_email Scene.calm 7 9 "an@voorbeeld.nl" "An" "Voorbeeld BV"
    (fresh (Scene.office Scene.deal_active))
  = (fresh (Scene.office Scene.deal_active), Returns false).
Proof. apply send_without_template. lia. Defined.

(** X15. [send_sequence_email] returns [True] exactly when the password
    is set, the number has a template and the SMTP session succeeded,
    whether or not the CRM then applied the updates; and exactly then the
    trace gains a delivery. *)
Theorem send_returns_true_iff env deal_id num to_email first_name company w :
  let r := send_sequence_email env deal_id num to_email first_name company w in
  (snd r = Returns true
   <-> configured (SMTP_PASS env) = true /\ 1 <= num <= 8
       /\ smtp env num = Up)
  /\ (snd r = Returns true
      <-> delivered deal_id (events (fst r))
          = delivered deal_id (events w) ++ [num]).
Proof.
  intros r. subst r.
  destruct (send_sequence_email_cases env deal_id num to_email first_name
              company w)
    as [[Hs [Hc|Hc]]|[(subject & Hs & Hp & Ht & Hsm)
                     |[(Hs & Hp & Ht & Hsm)|(subject & Hs & Hp & Ht & Hsm)]]];
    rewrite Hs; cbn [fst snd emit events].
  - split; split; try done.
    + intros (Hp & _). congruence.
    + intros Hd. by apply (f_equal length) in Hd;
        rewrite length_app in Hd; cbn in Hd; lia.
  - split; split; try done.
    + intros (_ & Hn & _). destruct (template_exists num Hn). congruence.
    + intros Hd. by apply (f_equal length) in Hd;
        rewrite length_app in Hd; cbn in Hd; lia.
  - split; split; try done.
    + intros (_ & _ & Hup). destruct Hsm; congruence.
    + rewrite delivered_app. cbn. rewrite app_nil_r. intros Hd.
      by apply (f_equal length) in Hd; rewrite length_app in Hd;
        cbn in Hd; lia.
  - split; split; try done.
    + intros (_ & _ & Hup). congruence.
    + intros Hd. by apply (f_equal length) in Hd;
        rewrite length_app in Hd; cbn in Hd; lia.
  - rewrite record_delivery_delivered. split; split; try done.
    intros _. eauto using template_range.
Qed.

Lemma send_returns_true_iff_witness :
  snd (send_sequence_email Scene2.writes_lost 7 3 "an@voorbeeld.nl" "An"
         "Voorbeeld BV" (fresh (Scene.office Scene.deal_active)))
  = Returns true.
Proof.
  apply (proj1 (send_returns_true_iff Scene2.writes_lost 7 3 "an@voorbeeld.nl"
                  "An" "Voorbeeld BV"
                  (fresh (Scene.office Scene.deal_active)))).
  repeat split; try reflexivity; lia.
Defined.
